(** * A news pipeline: resilient fetch, then text cleaning and structured extraction

    Shallow embedding of [src/test-Fetcher.py] (class [NewsFetcher]) and
    [src/test_Parser.py] (class [LLMNewsParser]), with the properties of the
    specification stated and proved over it.

    Conventions of the embedding.
    - A Python [str] is a list of Unicode code points ([pystr]); [len], slicing
      and [strip] therefore count characters, as Python does.  Literals of the
      source are written as UTF-8 strings and decoded by [u].
    - Python [int] is [Z]; a duration, a [float] in the source, is an exact
      rational ([Q]).  The one place where the code leaves exact arithmetic
      by an exception, the conversion of [2 ** attempt] to a float, is
      modelled; rounding, [inf] and [nan] are not.
    - [raise]/[try]/[except] become a [result] type and explicit handler
      functions, one per [try] statement, with the clauses in source order.
      The exception types stand for instances of [Exception]; signals that
      derive from [BaseException] only (task cancellation, interpreter exit)
      belong to the scheduler and are not modelled.
    - The network, the random generator, the extraction service and
      [json.loads] are oracles, passed as records ([Fetcher.net],
      [Parser.env]); what [fetch] does to the network is recorded in a trace.
    - [re], [bs4] and [json] are modelled for the patterns and inputs the
      code uses; each model says what it leaves out.
    - Logging is an observability side channel and is left out. *)

From Stdlib Require Import List ZArith NArith QArith Lia Bool Ascii String.
From Stdlib Require Import DecimalString.
Import ListNotations.

Set Implicit Arguments.
Set Warnings "-register-all".

(* ================================================================== *)
(** ** Python strings *)

Module PyStr.

Definition char := N.
Definition pystr := list char.

Definition bytes_of_string (s : string) : list N :=
  map N_of_ascii (list_ascii_of_string s).

(** UTF-8 decoding of the bytes of a literal (well-formed input assumed; a
    truncated sequence ends the result). *)
Fixpoint utf8_decode (l : list N) : pystr :=
  match l with
  | [] => []
  | b0 :: t =>
    if (b0 <? 128)%N then b0 :: utf8_decode t
    else if (b0 <? 224)%N then
      match t with
      | b1 :: t1 => ((b0 - 192) * 64 + (b1 - 128))%N :: utf8_decode t1
      | _ => []
      end
    else if (b0 <? 240)%N then
      match t with
      | b1 :: b2 :: t2 =>
        ((b0 - 224) * 4096 + (b1 - 128) * 64 + (b2 - 128))%N :: utf8_decode t2
      | _ => []
      end
    else
      match t with
      | b1 :: b2 :: b3 :: t3 =>
        ((b0 - 240) * 262144 + (b1 - 128) * 4096 + (b2 - 128) * 64 + (b3 - 128))%N
          :: utf8_decode t3
      | _ => []
      end
  end.

(** [u "..."] is the Python string written by that literal. *)
Definition u (s : string) : pystr := utf8_decode (bytes_of_string s).

(** [uq "..."]: as [u], with every apostrophe of the literal standing for a
    double quote (code point 34). *)
Definition uq (s : string) : pystr :=
  map (fun c => if (c =? 39)%N then 34%N else c) (u s).

Arguments u s%_string.
Arguments uq s%_string.

Definition len (s : pystr) : Z := Z.of_nat (List.length s).

(** [s[:n]] for a Python int [n] (a negative bound counts from the end). *)
Definition slice_to (s : pystr) (n : Z) : pystr :=
  if (n <? 0)%Z then firstn (Z.to_nat (len s + n)) s
  else firstn (Z.to_nat n) s.

(** [s[a:b]] for indices [0 <= a], [0 <= b]. *)
Definition slice (s : pystr) (a b : Z) : pystr :=
  firstn (Z.to_nat (b - a)) (skipn (Z.to_nat a) s).

(** [str.isspace] of one character, which is also the class [\s] of [re] on
    [str] patterns. *)
Definition isspace (c : char) : bool :=
  ((9 <=? c) && (c <=? 13) || (28 <=? c) && (c <=? 32)
   || (c =? 133) || (c =? 160) || (c =? 5760)
   || (8192 <=? c) && (c <=? 8202)
   || (c =? 8232) || (c =? 8233) || (c =? 8239) || (c =? 8287)
   || (c =? 12288))%N.

Fixpoint lstrip (s : pystr) : pystr :=
  match s with
  | [] => []
  | c :: t => if isspace c then lstrip t else s
  end.

Fixpoint rstrip (s : pystr) : pystr :=
  match s with
  | [] => []
  | c :: t =>
    match rstrip t with
    | [] => if isspace c then [] else [c]
    | r => c :: r
    end
  end.

(** [s.strip()] *)
Definition strip (s : pystr) : pystr := rstrip (lstrip s).

(** No white space at the start. *)
Definition starts_clean (s : pystr) : bool :=
  match s with
  | [] => true
  | c :: _ => negb (isspace c)
  end.

Fixpoint eqb (a b : pystr) : bool :=
  match a, b with
  | [], [] => true
  | x :: a', y :: b' => (x =? y)%N && eqb a' b'
  | _, _ => false
  end.

Fixpoint startswith (p s : pystr) : bool :=
  match p, s with
  | [], _ => true
  | x :: p', y :: s' => (x =? y)%N && startswith p' s'
  | _ :: _, [] => false
  end.

(** [sep.join(parts)] *)
Fixpoint join (sep : pystr) (parts : list pystr) : pystr :=
  match parts with
  | [] => []
  | [p] => p
  | p :: rest => p ++ sep ++ join sep rest
  end.

(** [str(n)] for a Python int. *)
Definition str_int (n : Z) : pystr :=
  bytes_of_string (NilZero.string_of_int (Z.to_int n)).

End PyStr.

Import PyStr.

(** Results of code that may raise. *)
Inductive result (E A : Type) : Type :=
| Return (a : A)
| Raise (e : E).

Arguments Return {E A} a.
Arguments Raise {E A} e.

Definition bind {E A B} (r : result E A) (k : A -> result E B) : result E B :=
  match r with
  | Return a => k a
  | Raise e => Raise e
  end.

Notation "'let*' x ':=' r 'in' k" := (bind r (fun x => k))
  (at level 10, x name, r at level 100, k at level 200).

(** [for i in range(n)] *)
Definition py_range (n : Z) : list Z := map Z.of_nat (seq 0 (Z.to_nat n)).

(* ================================================================== *)
(** ** The fetcher ([src/test-Fetcher.py]) *)

Module Fetcher.

Definition bytes := list Byte.byte.

(** What [fetch] can raise: [FetchError] and its subclass
    [ContentValidationError], which both carry [url] and [reason]; and the
    [OverflowError] of line 149, which is not a [FetchError] and carries its
    message only. *)
Inductive fetch_exn : Type :=
| FetchError (url reason : pystr)
| ContentValidationError_ (url reason : pystr)
| OverflowError (msg : pystr).

(** [ContentValidationError.__init__] prefixes the reason it is given. *)
Definition ContentValidationError (url reason : pystr) : fetch_exn :=
  ContentValidationError_ url (u "内容校验失败: " ++ reason).

Definition USER_AGENTS : list pystr :=
  [ u "Mozilla/5.0 (Windows NT 10.0; Win64; x64) AppleWebKit/537.36 (KHTML, like Gecko) Chrome/121.0.0.0 Safari/537.36";
    u "Mozilla/5.0 (Macintosh; Intel Mac OS X 14_2) AppleWebKit/605.1.15 (KHTML, like Gecko) Version/17.2 Safari/605.1.15";
    u "Mozilla/5.0 (X11; Linux x86_64) AppleWebKit/537.36 (KHTML, like Gecko) Chrome/120.0.0.0 Safari/537.36 Edg/120.0.0.0";
    u "Mozilla/5.0 (Windows NT 10.0; Win64; x64; rv:122.0) Gecko/20100101 Firefox/122.0";
    u "Mozilla/5.0 (iPhone; CPU iPhone OS 17_2 like Mac OS X) AppleWebKit/605.1.15 (KHTML, like Gecko) Version/17.2 Mobile/15E148 Safari/604.1" ].

(** The arguments of [self.client.get]. *)
Record request : Type := {
  req_url : pystr;
  req_headers : list (pystr * pystr)
}.

(** What one [client.get(...)] followed by [raise_for_status()] can do:
    deliver a response, or raise one of the exceptions the loop tells apart
    ([ExcOther] is any other [Exception], with its [str()]). *)
Inductive http_outcome : Type :=
| Response (status_code : Z) (content : bytes)
| ExcTimeout
| ExcConnect
| ExcOther (msg : pystr).

(** The outside world of one fetcher: the transport answers the [k]-th request
    it is sent, the generator gives the [k]-th draw of [random.choice]. *)
Record net : Type := {
  http_get : nat -> request -> http_outcome;
  draw : nat -> nat
}.

(** What [fetch] does to the outside: a request, or a call of
    [asyncio.sleep] with the delay of line 149 (the exact value of the
    product, see [backoff_time]). *)
Inductive event : Type :=
| EvGet (r : request)
| EvSleep (seconds : Q).

(** The state threaded through [fetch]: how many requests were sent, and
    everything done so far, oldest first. *)
Record world : Type := {
  sent : nat;
  events : list event
}.

Definition world0 : world := {| sent := 0; events := [] |}.

(** Constructor arguments kept by [NewsFetcher.__init__]. *)
Record NewsFetcher : Type := {
  timeout : Q;
  max_retries : Z;
  backoff_base : Q;
  content_validator : option (bytes -> bool)
}.

(** [response.is_success], the test of [raise_for_status]. *)
Definition is_success (status_code : Z) : bool :=
  (200 <=? status_code)%Z && (status_code <=? 299)%Z.

(** Exceptions that can occur inside the [try] of one attempt. *)
Inductive attempt_exn : Type :=
| AContentValidation (e : fetch_exn)
| AHTTPStatus (status_code : Z)
| ATimeout
| AConnect
| AOther (msg : pystr).

(** Lines 96-100: the headers of the [k]-th request. *)
Definition build_request (nw : net) (k : nat) (source_url : pystr) : request :=
  {| req_url := source_url;
     req_headers :=
       [ (u "User-Agent",
          nth (Nat.modulo (draw nw k) (List.length USER_AGENTS)) USER_AGENTS []);
         (u "Accept",
          u "text/html,application/xhtml+xml,application/xml;q=0.9,*/*;q=0.8");
         (u "Accept-Language", u "zh-CN,zh;q=0.9,en;q=0.8") ] |}.

(** The body of the [try] (lines 94-121): send, check the status, validate. *)
Definition attempt_body (self : NewsFetcher) (nw : net) (source_url : pystr)
    (w : world) : result attempt_exn bytes * world :=
  let headers_req := build_request nw (sent w) source_url in
  let w1 := {| sent := S (sent w); events := events w ++ [EvGet headers_req] |} in
  match http_get nw (sent w) headers_req with
  | Response status_code content =>
    if is_success status_code then
      match content_validator self with
      | Some validate =>
        if negb (validate content) then
          (Raise (AContentValidation
                    (ContentValidationError source_url
                       (u "内容未通过校验（长度: "
                          ++ str_int (Z.of_nat (List.length content))
                          ++ u " 字节）"))), w1)
        else (Return content, w1)
      | None => (Return content, w1)
      end
    else (Raise (AHTTPStatus status_code), w1)
  | ExcTimeout => (Raise ATimeout, w1)
  | ExcConnect => (Raise AConnect, w1)
  | ExcOther msg => (Raise (AOther msg), w1)
  end.

(** The [except] clauses (lines 123-145), in source order: either the
    exception leaves [fetch], or it becomes the new [last_error_reason]. *)
Definition attempt_except (e : attempt_exn) : fetch_exn + pystr :=
  match e with
  | AContentValidation cve => inl cve
  | AHTTPStatus status_code => inr (u "HTTP状态码错误: " ++ str_int status_code)
  | ATimeout => inr (u "请求超时")
  | AConnect => inr (u "连接失败（DNS/拒绝连接）")
  | AOther msg => inr (u "未知错误: " ++ slice_to msg 200)
  end.

(** [2 ** attempt] is an [int], and Python converts it to a float before it
    multiplies it with the float [backoff_base]: from [2 ** 1024] on the
    conversion raises. *)
Definition float_of_power (attempt : Z) : result fetch_exn Q :=
  if (1024 <=? attempt)%Z
  then Raise (OverflowError (u "int too large to convert to float"))
  else Return (inject_Z (2 ^ attempt)).

(** Line 149, [self.backoff_base * (2 ** attempt)].  The product itself is
    taken exactly, as it is in binary floating point for a finite
    [backoff_base] as long as it stays below the largest float; beyond that
    Python gives [inf] without raising, and the exact product recorded here
    stands for it. *)
Definition backoff_time (self : NewsFetcher) (attempt : Z)
    : result fetch_exn Q :=
  let* power := float_of_power attempt in
  Return (backoff_base self * power)%Q.

Definition sleep (seconds : Q) (w : world) : world :=
  {| sent := sent w; events := events w ++ [EvSleep seconds] |}.

(** The [for attempt in range(self.max_retries)] loop, over the attempts still
    to run, and the statements after it (lines 155-157). *)
Fixpoint fetch_loop (self : NewsFetcher) (nw : net) (source_url : pystr)
    (attempts : list Z) (last_error_reason : pystr) (w : world)
    : result fetch_exn bytes * world :=
  match attempts with
  | [] => (Raise (FetchError source_url last_error_reason), w)
  | attempt :: rest =>
    let (r, w1) := attempt_body self nw source_url w in
    match r with
    | Return content => (Return content, w1)
    | Raise e =>
      match attempt_except e with
      | inl out => (Raise out, w1)
      | inr reason =>
        if (attempt <? max_retries self - 1)%Z then
          match backoff_time self attempt with
          | Return seconds =>
            fetch_loop self nw source_url rest reason (sleep seconds w1)
          | Raise overflow => (Raise overflow, w1)
          end
        else fetch_loop self nw source_url rest reason w1
      end
    end
  end.

Definition fetch (self : NewsFetcher) (nw : net) (source_url : pystr)
    (w : world) : result fetch_exn bytes * world :=
  fetch_loop self nw source_url (py_range (max_retries self)) [] w.

(** Projections of a trace. *)
Definition gets (evs : list event) : list request :=
  flat_map (fun e => match e with EvGet r => [r] | EvSleep _ => [] end) evs.

Definition sleeps (evs : list event) : list Q :=
  flat_map (fun e => match e with EvGet _ => [] | EvSleep d => [d] end) evs.

(** Vocabulary of the specification. *)

(** A failure that section 4.1 calls retryable: a status outside 200-299, a
    timeout, a connection failure or any other exception of the attempt. *)
Definition retryable (o : http_outcome) : bool :=
  match o with
  | Response status_code _ => negb (is_success status_code)
  | ExcTimeout | ExcConnect | ExcOther _ => true
  end.

(** The reason captured for a retryable failure. *)
Definition failure_reason (o : http_outcome) : pystr :=
  match o with
  | Response status_code _ => u "HTTP状态码错误: " ++ str_int status_code
  | ExcTimeout => u "请求超时"
  | ExcConnect => u "连接失败（DNS/拒绝连接）"
  | ExcOther msg => u "未知错误: " ++ slice_to msg 200
  end.

(** The delay of line 149 as a number. *)
Definition delay (self : NewsFetcher) (attempt : Z) : Q :=
  (backoff_base self * inject_Z (2 ^ attempt))%Q.


(** The reason held after [n] failing requests numbered from [k]. *)
Fixpoint reason_after (nw : net) (source_url : pystr) (n k : nat)
    (last_error_reason : pystr) : pystr :=
  match n with
  | O => last_error_reason
  | S n' =>
    reason_after nw source_url n' (S k)
      (failure_reason (http_get nw k (build_request nw k source_url)))
  end.

(** The validator of the test at the end of the source file, without its
    test of [content.strip()]. *)
Definition longer_than_100 (content : bytes) : bool :=
  Nat.ltb 100 (List.length content).

(** Sample transports and fetchers. *)

Definition always_404 : net :=
  {| http_get := fun _ _ => Response 404 []; draw := fun _ => 0%nat |}.

Definition always_200_empty : net :=
  {| http_get := fun _ _ => Response 200 []; draw := fun _ => 0%nat |}.

Definition three_tries : NewsFetcher :=
  {| timeout := 10; max_retries := 3; backoff_base := 1;
     content_validator := Some longer_than_100 |}.

Definition no_tries : NewsFetcher :=
  {| timeout := 10; max_retries := 0; backoff_base := 1;
     content_validator := Some longer_than_100 |}.


Definition some_url : pystr := u "https://example.com/404".

End Fetcher.

(* ================================================================== *)
(** ** Library models used by the parser *)

(** *** [re.sub] and [re.search] for the patterns of the source *)

Module Re.

(** [re.sub(r"[C]+", repl, s)] for a character class [C]: every maximal run
    of characters of the class is replaced by [repl].  [in_run] tells that
    the previous character belonged to the run being replaced. *)
Fixpoint sub_runs (cls : char -> bool) (repl : pystr) (in_run : bool)
    (s : pystr) : pystr :=
  match s with
  | [] => []
  | c :: t =>
    if cls c then
      if in_run then sub_runs cls repl true t
      else repl ++ sub_runs cls repl true t
    else c :: sub_runs cls repl false t
  end.

Definition sub_class_plus (cls : char -> bool) (repl s : pystr) : pystr :=
  sub_runs cls repl false s.

(** Every character of the class is [r] and no two characters of the class
    are adjacent; [prev] tells that the character before [s] is of the
    class. *)
Fixpoint collapsed (cls : char -> bool) (r : char) (prev : bool) (s : pystr)
    : bool :=
  match s with
  | [] => true
  | c :: t =>
    if cls c then negb prev && (c =? r)%N && collapsed cls r true t
    else collapsed cls r false t
  end.

(** A pattern as a sequence of atoms, enough for
    [```(?:json)?\s*(.*?)\s*```]: literals, a greedy optional literal, greedy
    and lazy stars over a character class, and the bounds of group 1. *)
Inductive atom : Type :=
| Lit (s : pystr)
| OptLit (s : pystr)
| StarGreedy (cls : char -> bool)
| StarLazy (cls : char -> bool)
| GroupOpen
| GroupClose.

(** Positions are counted as the number of characters consumed so far. *)
Record captures : Type := {
  g_open : nat;
  g_close : nat
}.

Fixpoint strip_prefix (p s : pystr) : option pystr :=
  match p, s with
  | [], _ => Some s
  | x :: p', y :: s' => if (x =? y)%N then strip_prefix p' s' else None
  | _ :: _, [] => None
  end.

(** Backtracking match of the atoms at the head of [s]; [pos] is the position
    of [s] in the subject.  Alternatives are tried in the order of [re]:
    a greedy atom first takes as much as it can, a lazy one as little. *)
Fixpoint match_here (atoms : list atom) (s : pystr) (pos : nat) (c : captures)
    {struct atoms} : option captures :=
  match atoms with
  | [] => Some c
  | Lit l :: rest =>
    match strip_prefix l s with
    | Some s' => match_here rest s' (pos + List.length l) c
    | None => None
    end
  | OptLit l :: rest =>
    match strip_prefix l s with
    | Some s' =>
      match match_here rest s' (pos + List.length l) c with
      | Some r => Some r
      | None => match_here rest s pos c
      end
    | None => match_here rest s pos c
    end
  | StarGreedy cls :: rest =>
    (fix star (s : pystr) (pos : nat) {struct s} : option captures :=
       match s with
       | x :: s' =>
         if cls x then
           match star s' (S pos) with
           | Some r => Some r
           | None => match_here rest s pos c
           end
         else match_here rest s pos c
       | [] => match_here rest s pos c
       end) s pos
  | StarLazy cls :: rest =>
    (fix star (s : pystr) (pos : nat) {struct s} : option captures :=
       match match_here rest s pos c with
       | Some r => Some r
       | None =>
         match s with
         | x :: s' => if cls x then star s' (S pos) else None
         | [] => None
         end
       end) s pos
  | GroupOpen :: rest =>
    match_here rest s pos {| g_open := pos; g_close := g_close c |}
  | GroupClose :: rest =>
    match_here rest s pos {| g_open := g_open c; g_close := pos |}
  end.

(** [re.search(pattern, subject)]: the match at the leftmost start position;
    the result is [match.group(1)]. *)
Fixpoint search_from (atoms : list atom) (subject s : pystr) (pos : nat)
    : option pystr :=
  match match_here atoms s pos {| g_open := 0; g_close := 0 |} with
  | Some c => Some (firstn (g_close c - g_open c) (skipn (g_open c) subject))
  | None =>
    match s with
    | [] => None
    | _ :: s' => search_from atoms subject s' (S pos)
    end
  end.

Definition search_group1 (atoms : list atom) (subject : pystr) : option pystr :=
  search_from atoms subject subject 0.

End Re.

(** *** [BeautifulSoup(markup, "html.parser")]

    A model of the library for markup made of tags, comments and text: the
    tokens of [html.parser] and the nesting that bs4 builds from them, kept
    as the strings of the document in order, each with the tags it lies in.
    Character references ([&...;]) are not decoded and a construct that is
    cut off by the end of the input is kept as text; the model says nothing
    reliable about markup with either.

    The model hands over a text for every input and differs from the
    library on:
    - marked sections: [html.parser] raises on [<![x]>] and the like (an
      unknown keyword, a missing name), which bs4 passes on as
      [ParserRejectedMarkup]; [<![CDATA[ ... ]]>] is tokenised differently;
    - the end tags [</>] and [</ name>], and a self-closing [<script/>];
    - a [/] that ends an unquoted attribute value, which the library takes
      as part of the value and the model as the mark of a self-closing tag.
    What is proved through this model is about markup without these
    constructs; [Parser.clean_html_with] takes the outcome of the library
    as it is. *)

Module Html.

Inductive token : Type :=
| TStart (name : pystr) (self_closing : bool)
| TEnd (name : pystr)
| TComment (data : pystr)
| TDecl (data : pystr)
| TData (data : pystr).

Definition is_alpha (c : char) : bool :=
  ((65 <=? c) && (c <=? 90) || (97 <=? c) && (c <=? 122))%N.

Definition lower (c : char) : char :=
  if ((65 <=? c) && (c <=? 90))%N then (c + 32)%N else c.

(** Characters that end a tag name: tab, line feed, form feed, carriage
    return, space, [/] and [>]. *)
Definition ends_name (c : char) : bool :=
  ((c =? 9) || (c =? 10) || (c =? 12) || (c =? 13) || (c =? 32)
   || (c =? 47) || (c =? 62))%N.

Fixpoint span (p : char -> bool) (s : pystr) : pystr * pystr :=
  match s with
  | [] => ([], [])
  | c :: t =>
    if p c then let (a, b) := span p t in (c :: a, b) else ([], s)
  end.

(** Split at the first occurrence of [pat]: the text before it and the text
    after it. *)
Fixpoint find_sub (pat s : pystr) : option (pystr * pystr) :=
  match Re.strip_prefix pat s with
  | Some rest => Some ([], rest)
  | None =>
    match s with
    | [] => None
    | c :: t =>
      match find_sub pat t with
      | Some (a, b) => Some (c :: a, b)
      | None => None
      end
    end
  end.

(** From inside a start tag to its closing [>]: a quoted attribute value may
    contain [>].  Returns whether the tag ends in [/>] and what follows. *)
Fixpoint scan_attrs (quote : option char) (after_eq prev_slash : bool)
    (s : pystr) : option (bool * pystr) :=
  match s with
  | [] => None
  | c :: t =>
    match quote with
    | Some q =>
      if (c =? q)%N then scan_attrs None false false t
      else scan_attrs quote false false t
    | None =>
      if (c =? 62)%N then Some (prev_slash, t)
      else if (c =? 61)%N then scan_attrs None true false t
      else if (after_eq && ((c =? 34) || (c =? 39)))%N then
        scan_attrs (Some c) false false t
      else if isspace c then scan_attrs None after_eq false t
      else scan_attrs None false (c =? 47)%N t
    end
  end.

Definition CDATA_CONTENT_ELEMENTS : list pystr := [u "script"; u "style"].

(** In a [script] or [style] element: the raw text up to the end tag of that
    element (compared without case), and the input from that end tag on. *)
Fixpoint find_cdata_end (name s : pystr) : option (pystr * pystr) :=
  match s with
  | [] => None
  | c :: t =>
    let closes :=
      match s with
      | 60%N :: 47%N :: r =>
        match Re.strip_prefix name (map lower (firstn (List.length name) r)) with
        | Some [] =>
          match skipn (List.length name) r with
          | d :: _ => ends_name d
          | [] => false
          end
        | _ => false
        end
      | _ => false
      end in
    if closes then Some ([], s)
    else
      match find_cdata_end name t with
      | Some (a, b) => Some (c :: a, b)
      | None => None
      end
  end.

Definition not_lt (c : char) : bool := negb (c =? 60)%N.

(** The events of [html.parser], in order. *)
Fixpoint tokenize (fuel : nat) (cdata : option pystr) (s : pystr) : list token :=
  match fuel with
  | O => []
  | S f =>
    match s with
    | [] => []
    | c :: t =>
      match cdata with
      | Some name =>
        match find_cdata_end name s with
        | Some ([], rest) => tokenize f None rest
        | Some (raw, rest) => TData raw :: tokenize f None rest
        | None => [TData s]
        end
      | None =>
        if (c =? 60)%N then
          match t with
          | 33%N :: 45%N :: 45%N :: body =>
            match find_sub (u "-->") body with
            | Some (data, rest) => TComment data :: tokenize f None rest
            | None => [TData s]
            end
          | 33%N :: body | 63%N :: body =>
            match find_sub (u ">") body with
            | Some (data, rest) => TDecl data :: tokenize f None rest
            | None => [TData s]
            end
          | 47%N :: body =>
            match body with
            | d :: _ =>
              if is_alpha d then
                let (name, r1) := span (fun x => negb (ends_name x)) body in
                match find_sub (u ">") r1 with
                | Some (_, rest) => TEnd (map lower name) :: tokenize f None rest
                | None => [TData s]
                end
              else
                match find_sub (u ">") body with
                | Some (data, rest) => TComment data :: tokenize f None rest
                | None => [TData s]
                end
            | [] => [TData s]
            end
          | d :: _ =>
            if is_alpha d then
              let (name, r1) := span (fun x => negb (ends_name x)) t in
              match scan_attrs None false false r1 with
              | Some (self_closing, rest) =>
                let tag := map lower name in
                TStart tag self_closing
                  :: tokenize f
                       (if existsb (eqb tag) CDATA_CONTENT_ELEMENTS
                        then Some tag else None)
                       rest
              | None => [TData s]
              end
            else TData [c] :: tokenize f None t
          | [] => [TData s]
          end
        else
          let (data, rest) := span not_lt s in
          TData data :: tokenize f None rest
      end
    end
  end.

Definition feed (markup : pystr) : list token :=
  tokenize (2 * List.length markup + 2) None markup.

(** A string of the parsed document with the names of the open tags around
    it, innermost first. *)
Inductive node_kind : Type := KText | KComment | KDecl.

Record node : Type := {
  kind : node_kind;
  ancestors : list pystr;
  text : pystr
}.

Definition soup := list node.

(** bs4's [ASCII_SPACES]. *)
Definition ascii_space (c : char) : bool :=
  ((c =? 32) || (c =? 10) || (c =? 9) || (c =? 12) || (c =? 13))%N.

Definition preserve_whitespace_tags : list pystr := [u "pre"; u "textarea"].

Definition void_elements : list pystr :=
  map u [ "area"; "base"; "br"; "col"; "embed"; "hr"; "img"; "input";
          "keygen"; "link"; "menuitem"; "meta"; "param"; "source"; "track";
          "wbr"; "basefont"; "bgsound"; "command"; "frame"; "image";
          "isindex"; "nextid"; "spacer" ]%string.

Definition mem (x : pystr) (l : list pystr) : bool := existsb (eqb x) l.

(** [BeautifulSoup.endData]: the text collected since the last tag becomes one
    string; a string of ASCII white space only is replaced by one line feed
    or one space, except inside [pre] and [textarea]. *)
Definition endData (stack : list pystr) (current_data : pystr) : soup :=
  match current_data with
  | [] => []
  | _ =>
    let data :=
      if forallb ascii_space current_data
         && negb (existsb (fun t => mem t preserve_whitespace_tags) stack)
      then if existsb (fun c => (c =? 10)%N) current_data then [10%N] else [32%N]
      else current_data in
    [ {| kind := KText; ancestors := stack; text := data |} ]
  end.

(** [_popToTag]: close every tag down to the innermost open [name]; an end
    tag that matches nothing is ignored. *)
Fixpoint pop_to (name : pystr) (stack : list pystr) : option (list pystr) :=
  match stack with
  | [] => None
  | t :: rest => if eqb t name then Some rest else pop_to name rest
  end.

Fixpoint build (toks : list token) (stack : list pystr) (current_data : pystr)
    : soup :=
  match toks with
  | [] => endData stack current_data
  | TData d :: rest => build rest stack (current_data ++ d)
  | TComment d :: rest =>
    endData stack current_data
      ++ {| kind := KComment; ancestors := stack; text := d |}
      :: build rest stack []
  | TDecl d :: rest =>
    endData stack current_data
      ++ {| kind := KDecl; ancestors := stack; text := d |}
      :: build rest stack []
  | TStart name self_closing :: rest =>
    endData stack current_data
      ++ build rest
           (if self_closing || mem name void_elements then stack
            else name :: stack) []
  | TEnd name :: rest =>
    endData stack current_data
      ++ build rest
           (match pop_to name stack with Some st => st | None => stack end) []
  end.

Definition BeautifulSoup (markup : pystr) : soup := build (feed markup) [] [].

(** [for tag in soup(names): tag.decompose()]: everything inside a tag with
    one of the names goes. *)
Definition decompose_all (names : list pystr) (sp : soup) : soup :=
  filter (fun n => negb (existsb (fun a => mem a names) (ancestors n))) sp.

(** [for c in soup.find_all(string=is a Comment): c.extract()] *)
Definition extract_comments (sp : soup) : soup :=
  filter (fun n => match kind n with KComment => false | _ => true end) sp.

(** [soup.get_text(separator=sep)]: the text strings, in document order. *)
Definition get_text (sep : pystr) (sp : soup) : pystr :=
  join sep
    (flat_map (fun n => match kind n with KText => [text n] | _ => [] end) sp).

End Html.

(** *** [json.loads]

    Decoded values, and a decoder for the grammar Python accepts.  The text of
    a [JSONDecodeError] (message and position) is not modelled: the parser
    never gets to read it. *)

Module Json.

Inductive json : Type :=
| JNull
| JBool (b : bool)
| JInt (n : Z)
| JFloat (lexeme : pystr)
| JStr (s : pystr)
| JList (l : list json)
| JDict (items : list (pystr * json)).

(** [d.get(key)] and [d[key] = v] on the items of a dict, in insertion
    order. *)
Fixpoint dict_get (items : list (pystr * json)) (key : pystr) : option json :=
  match items with
  | [] => None
  | (k, v) :: rest => if eqb k key then Some v else dict_get rest key
  end.

Fixpoint dict_set (items : list (pystr * json)) (key : pystr) (v : json)
    : list (pystr * json) :=
  match items with
  | [] => [(key, v)]
  | (k, v0) :: rest =>
    if eqb k key then (k, v) :: rest else (k, v0) :: dict_set rest key v
  end.

Definition is_ws (c : char) : bool :=
  ((c =? 32) || (c =? 9) || (c =? 10) || (c =? 13))%N.

Fixpoint skip_ws (s : pystr) : pystr :=
  match s with
  | c :: t => if is_ws c then skip_ws t else s
  | [] => []
  end.

Definition is_digit (c : char) : bool := ((48 <=? c) && (c <=? 57))%N.

Definition hex_value (c : char) : option N :=
  if is_digit c then Some (c - 48)%N
  else if ((97 <=? c) && (c <=? 102))%N then Some (c - 87)%N
  else if ((65 <=? c) && (c <=? 70))%N then Some (c - 55)%N
  else None.

Definition hex4 (s : pystr) : option (N * pystr) :=
  match s with
  | a :: b :: c :: d :: rest =>
    match hex_value a, hex_value b, hex_value c, hex_value d with
    | Some x, Some y, Some z, Some w =>
      Some ((x * 4096 + y * 256 + z * 16 + w)%N, rest)
    | _, _, _, _ => None
    end
  | _ => None
  end.

(** The characters of a string literal after its opening quote. *)
Fixpoint scan_string (fuel : nat) (s : pystr) : option (pystr * pystr) :=
  match fuel with
  | O => None
  | S f =>
    match s with
    | [] => None
    | 34%N :: rest => Some ([], rest)
    | 92%N :: e :: rest =>
      let simple (c : char) :=
        match scan_string f rest with
        | Some (body, r) => Some (c :: body, r)
        | None => None
        end in
      if (e =? 34)%N then simple 34%N
      else if (e =? 92)%N then simple 92%N
      else if (e =? 47)%N then simple 47%N
      else if (e =? 98)%N then simple 8%N
      else if (e =? 102)%N then simple 12%N
      else if (e =? 110)%N then simple 10%N
      else if (e =? 114)%N then simple 13%N
      else if (e =? 116)%N then simple 9%N
      else if (e =? 117)%N then
        match hex4 rest with
        | Some (hi, r1) =>
          let single :=
            match scan_string f r1 with
            | Some (body, r) => Some (hi :: body, r)
            | None => None
            end in
          if ((55296 <=? hi) && (hi <=? 56319))%N then
            match r1 with
            | 92%N :: 117%N :: r2 =>
              match hex4 r2 with
              | Some (lo, r3) =>
                if ((56320 <=? lo) && (lo <=? 57343))%N then
                  match scan_string f r3 with
                  | Some (body, r) =>
                    Some ((65536 + (hi - 55296) * 1024 + (lo - 56320))%N :: body, r)
                  | None => None
                  end
                else single
              | None => single
              end
            | _ => single
            end
          else single
        | None => None
        end
      else None
    | c :: rest =>
      if (c <? 32)%N then None
      else
        match scan_string f rest with
        | Some (body, r) => Some (c :: body, r)
        | None => None
        end
    end
  end.

Fixpoint digits_value (acc : Z) (ds : pystr) : Z :=
  match ds with
  | [] => acc
  | d :: t => digits_value (acc * 10 + Z.of_N (d - 48)) t
  end.

(** A number: an optional minus sign, an integer part without leading
    zeros, then optionally a fraction and an exponent; a fraction or an
    exponent that is not complete is left to the caller as trailing text. *)
Definition scan_number (s : pystr) : option (json * pystr) :=
  let (neg, s1) :=
    match s with
    | 45%N :: t => (true, t)
    | _ => (false, s)
    end in
  let (int_digits, s2) :=
    match s1 with
    | 48%N :: t => ([48%N], t)
    | _ => Html.span is_digit s1
    end in
  match int_digits with
  | [] => None
  | _ =>
    let (frac, s3) :=
      match s2 with
      | 46%N :: t =>
        match Html.span is_digit t with
        | ([], _) => ([], s2)
        | (ds, r) => (46%N :: ds, r)
        end
      | _ => ([], s2)
      end in
    let (expo, s4) :=
      match s3 with
      | e :: t =>
        if ((e =? 101) || (e =? 69))%N then
          let (sign, t1) :=
            match t with
            | sg :: t' =>
              if ((sg =? 43) || (sg =? 45))%N then ([sg], t') else ([], t)
            | [] => ([], t)
            end in
          match Html.span is_digit t1 with
          | ([], _) => ([], s3)
          | (ds, r) => (e :: sign ++ ds, r)
          end
        else ([], s3)
      | [] => ([], s3)
      end in
    match frac, expo with
    | [], [] =>
      let v := digits_value 0 int_digits in
      Some (JInt (if neg then (- v)%Z else v), s4)
    | _, _ =>
      Some (JFloat ((if neg then [45%N] else []) ++ int_digits ++ frac ++ expo), s4)
    end
  end.

Definition literals : list (pystr * json) :=
  [ (u "null", JNull); (u "true", JBool true); (u "false", JBool false);
    (u "NaN", JFloat (u "nan")); (u "Infinity", JFloat (u "inf"));
    (u "-Infinity", JFloat (u "-inf")) ].

Fixpoint scan_literal (table : list (pystr * json)) (s : pystr)
    : option (json * pystr) :=
  match table with
  | [] => None
  | (word, v) :: rest =>
    match Re.strip_prefix word s with
    | Some r => Some (v, r)
    | None => scan_literal rest s
    end
  end.

(** The elements of an array after the first, up to the closing bracket. *)
Fixpoint scan_elements (value : pystr -> option (json * pystr)) (fuel : nat)
    (acc : list json) (s : pystr) : option (json * pystr) :=
  match fuel with
  | O => None
  | S f =>
    match skip_ws s with
    | 93%N :: rest => Some (JList acc, rest)
    | 44%N :: rest =>
      match value (skip_ws rest) with
      | Some (v, r) => scan_elements value f (acc ++ [v]) r
      | None => None
      end
    | _ => None
    end
  end.

Definition scan_pair (value : pystr -> option (json * pystr)) (s : pystr)
    : option (pystr * json * pystr) :=
  match s with
  | 34%N :: t =>
    match scan_string (S (List.length t)) t with
    | Some (key, r) =>
      match skip_ws r with
      | 58%N :: r1 =>
        match value (skip_ws r1) with
        | Some (v, r2) => Some (key, v, r2)
        | None => None
        end
      | _ => None
      end
    | None => None
    end
  | _ => None
  end.

(** The members of an object after the first, up to the closing brace. *)
Fixpoint scan_members (value : pystr -> option (json * pystr)) (fuel : nat)
    (acc : list (pystr * json)) (s : pystr) : option (json * pystr) :=
  match fuel with
  | O => None
  | S f =>
    match skip_ws s with
    | 125%N :: rest => Some (JDict acc, rest)
    | 44%N :: rest =>
      match scan_pair value (skip_ws rest) with
      | Some (key, v, r) => scan_members value f (dict_set acc key v) r
      | None => None
      end
    | _ => None
    end
  end.

Fixpoint scan_value (fuel : nat) (s : pystr) : option (json * pystr) :=
  match fuel with
  | O => None
  | S f =>
    match s with
    | 34%N :: t =>
      match scan_string (S (List.length t)) t with
      | Some (body, r) => Some (JStr body, r)
      | None => None
      end
    | 91%N :: t =>
      match skip_ws t with
      | 93%N :: r => Some (JList [], r)
      | t1 =>
        match scan_value f t1 with
        | Some (v, r) => scan_elements (scan_value f) (List.length r) [v] r
        | None => None
        end
      end
    | 123%N :: t =>
      match skip_ws t with
      | 125%N :: r => Some (JDict [], r)
      | t1 =>
        match scan_pair (scan_value f) t1 with
        | Some (key, v, r) =>
          scan_members (scan_value f) (List.length r) [(key, v)] r
        | None => None
        end
      end
    | _ =>
      match scan_literal literals s with
      | Some r => Some r
      | None => scan_number s
      end
    end
  end.

(** [json.loads(s)]: one value, white space around it allowed, nothing
    else. *)
Definition decode (s : pystr) : option json :=
  match scan_value (S (List.length s)) (skip_ws s) with
  | Some (v, rest) =>
    match skip_ws rest with
    | [] => Some v
    | _ => None
    end
  | None => None
  end.

End Json.

(* ================================================================== *)
(** ** The parser ([src/test_Parser.py]) *)

Module Parser.

Import Json.

(** Exceptions of the interpreter and of the libraries that the code raises
    or tells apart.  In the openai package [APITimeoutError] derives from
    [APIConnectionError], which derives from [APIError]; each carries
    [message].  [OtherException] is any other instance of [Exception]; every
    constructor carries the [str()] of the exception. *)
Inductive py_exn : Type :=
| APITimeoutError (message : pystr)
| APIConnectionError (message : pystr)
| APIError (message : pystr)
| JSONDecodeError (msg : pystr)
| NameError (msg : pystr)
| IndexError (msg : pystr)
| AttributeError (msg : pystr)
| TypeError (msg : pystr)
| OtherException (msg : pystr).

(** What can be raised inside this module: its own [ParseError], or one of
    the above. *)
Inductive exn : Type :=
| ParseError (step reason : pystr)
| PyExn (e : py_exn).

Definition str_py (e : py_exn) : pystr :=
  match e with
  | APITimeoutError m | APIConnectionError m | APIError m
  | JSONDecodeError m | NameError m | IndexError m | AttributeError m
  | TypeError m | OtherException m => m
  end.

(** [str(e)]; [ParseError.__init__] passes its formatted message to
    [Exception.__init__]. *)
Definition str_exn (e : exn) : pystr :=
  match e with
  | ParseError step reason => u "解析失败（" ++ step ++ u "）: " ++ reason
  | PyExn e' => str_py e'
  end.

(** A call into a library, seen from this module. *)
Definition lift {A} (r : result py_exn A) : result exn A :=
  match r with
  | Return a => Return a
  | Raise e => Raise (PyExn e)
  end.

(** Constructor arguments kept by [LLMNewsParser.__init__]. *)
Record LLMNewsParser : Type := {
  model : pystr;
  temperature : Q;
  timeout : Q;
  max_text_length : Z
}.

(** The keyword arguments of [self.client.chat.completions.create]. *)
Record chat_request : Type := {
  rq_model : pystr;
  rq_messages : list (pystr * pystr);
  rq_temperature : Q;
  rq_timeout : Q;
  rq_response_format : pystr
}.

(** What the parser calls outside itself: the extraction service, which
    answers with the [message.content] of each of its [choices] or raises;
    [json.loads]; and the text Python prints for a float and for a decoded
    value inside an f-string. *)
Record env : Type := {
  create : chat_request -> result py_exn (list (option pystr));
  json_loads : pystr -> result py_exn json;
  fmt_float : Q -> pystr;
  fmt_value : json -> pystr
}.

(** **** [_clean_html] *)

Definition removed_tags : list pystr :=
  map u ["script"; "style"; "noscript"; "iframe"; "header"; "footer"]%string.

Definition space_or_tab (c : char) : bool := ((c =? 32) || (c =? 9))%N.
Definition line_feed (c : char) : bool := (c =? 10)%N.

(** Lines 63-86, the body of the [try], with the model [Html] for the
    library. *)
Definition clean_html_body (raw_html : pystr) : result exn pystr :=
  let soup := Html.BeautifulSoup raw_html in
  let soup := Html.decompose_all removed_tags soup in
  let soup := Html.extract_comments soup in
  let clean_text := Html.get_text [10%N] soup in
  let clean_text := Re.sub_class_plus space_or_tab [32%N] clean_text in
  let clean_text := Re.sub_class_plus line_feed [10%N] clean_text in
  let clean_text := strip clean_text in
  match clean_text with
  | [] => Raise (ParseError (u "html_clean") (u "HTML清理后无有效文本"))
  | _ => Return clean_text
  end.

(** Lines 88-89: [except Exception as e], which also receives the
    [ParseError] raised two lines above it. *)
Definition clean_html_except (e : exn) : result exn pystr :=
  Raise (ParseError (u "html_clean")
           (u "HTML解析失败: " ++ slice_to (str_exn e) 200)).

Definition _clean_html (raw_html : pystr) : result exn pystr :=
  match clean_html_body raw_html with
  | Return t => Return t
  | Raise e => clean_html_except e
  end.

(** **** [_clean_llm_json] *)

(** [r"```(?:json)?\s*(.*?)\s*```"] with [re.DOTALL]. *)
Definition json_pattern : list Re.atom :=
  [ Re.Lit (u "```"); Re.OptLit (u "json"); Re.StarGreedy isspace;
    Re.GroupOpen; Re.StarLazy (fun _ => true); Re.GroupClose;
    Re.StarGreedy isspace; Re.Lit (u "```") ].

(** [s.find(ch)] and [s.rfind(ch)] for one character; -1 when absent. *)
Fixpoint find (ch : char) (s : pystr) : Z :=
  match s with
  | [] => -1
  | c :: t =>
    if (c =? ch)%N then 0
    else let r := find ch t in if (r <? 0)%Z then -1 else (r + 1)%Z
  end.

Fixpoint rfind (ch : char) (s : pystr) : Z :=
  match s with
  | [] => -1
  | c :: t =>
    let r := rfind ch t in
    if (0 <=? r)%Z then (r + 1)%Z
    else if (c =? ch)%N then 0 else -1
  end.

Definition _clean_llm_json (llm_response : pystr) : pystr :=
  match Re.search_group1 json_pattern llm_response with
  | Some group1 => strip group1
  | None =>
    let start_idx := find 123%N llm_response in
    let end_idx := rfind 125%N llm_response in
    if (negb (start_idx =? -1) && negb (end_idx =? -1))%Z
    then strip (slice llm_response start_idx (end_idx + 1))
    else strip llm_response
  end.

(** **** [_call_llm] *)

Definition system_prompt : pystr := strip (u "
你是一个专业的新闻解析助手，需要严格遵守以下规则处理文本：
1. 仅从给定文本中提取信息，绝对不要编造任何数据；
2. 如果判断传入的文本根本不是一篇新闻报道（例如是登录提示、404错误、验证码页面、广告页面、空白页面等），请让所有字段的值严格返回null；
3. 若为有效新闻，提取以下字段并返回JSON格式：
   - title: 新闻标题（字符串，无则为null）
   - content: 新闻正文内容（字符串，保留核心信息，无则为null）
   - publish_time: 发布时间（ISO 8601格式，如2026-02-20T14:30:00+08:00，无则为null）
   - author: 作者（字符串，无则为null）
4. 严格按照上述字段返回，不要新增/遗漏字段，确保JSON格式完全合法，无任何额外解释或文本。
        ").

(** Lines 113-115: the text is cut to [max_text_length] characters. *)
Definition bound_text (self : LLMNewsParser) (clean_text : pystr) : pystr :=
  if (len clean_text >? max_text_length self)%Z
  then slice_to clean_text (max_text_length self)
  else clean_text.

Definition user_prompt_prefix : pystr :=
  u "请解析以下文本，严格按要求返回JSON：" ++ [10%N].

(** Lines 130-143: the request sent for a text that is already bounded. *)
Definition build_request (self : LLMNewsParser) (clean_text : pystr)
    : chat_request :=
  {| rq_model := model self;
     rq_messages :=
       [ (u "system", system_prompt);
         (u "user", user_prompt_prefix ++ clean_text) ];
     rq_temperature := temperature self;
     rq_timeout := timeout self;
     rq_response_format := u "json_object" |}.

(** Line 158 reads [clean_json_str].  No statement of [_call_llm] assigns
    that name and the module binds no global of that name, so the read
    raises. *)
Definition read_clean_json_str : result exn pystr :=
  Raise (PyExn (NameError (u "name 'clean_json_str' is not defined"))).

(** Lines 155-159: the handler of [json.JSONDecodeError].  The arguments of
    the f-string are evaluated from left to right before [ParseError] is
    built. *)
Definition json_decode_except (llm_output : pystr) (e : py_exn)
    : result exn json :=
  match e with
  | JSONDecodeError _ =>
    let raw_part := slice_to llm_output 200 in
    let* clean_json_str := read_clean_json_str in
    Raise (ParseError (u "json_parse")
             (u "JSON解析失败（原始输出：" ++ raw_part
                ++ u "，清洗后：" ++ slice_to clean_json_str 200
                ++ u "）：" ++ str_py e))
  | _ => Raise (PyExn e)
  end.

Definition required_fields : list pystr :=
  map u ["title"; "content"; "publish_time"; "author"]%string.

Fixpoint is_substring (p s : pystr) : bool :=
  startswith p s ||
  match s with
  | [] => false
  | _ :: t => is_substring p t
  end.

(** [f in structured_data], by the type of the decoded value. *)
Definition contains (structured_data : json) (f : pystr) : result exn bool :=
  match structured_data with
  | JDict items =>
    Return (match dict_get items f with Some _ => true | None => false end)
  | JList l =>
    Return (existsb (fun x => match x with JStr s => eqb s f | _ => false end) l)
  | JStr s => Return (is_substring f s)
  | JNull => Raise (PyExn (TypeError (u "argument of type 'NoneType' is not iterable")))
  | JBool _ => Raise (PyExn (TypeError (u "argument of type 'bool' is not iterable")))
  | JInt _ => Raise (PyExn (TypeError (u "argument of type 'int' is not iterable")))
  | JFloat _ => Raise (PyExn (TypeError (u "argument of type 'float' is not iterable")))
  end.

(** [[f for f in fields if f not in structured_data]] *)
Fixpoint missing (structured_data : json) (fields : list pystr)
    : result exn (list pystr) :=
  match fields with
  | [] => Return []
  | f :: rest =>
    let* present := contains structured_data f in
    let* others := missing structured_data rest in
    Return (if present then others else f :: others)
  end.

(** [structured_data.get(key)]; [None] is [JNull]. *)
Definition get (structured_data : json) (key : pystr) : result exn json :=
  match structured_data with
  | JDict items =>
    Return (match dict_get items key with Some v => v | None => JNull end)
  | JList _ => Raise (PyExn (AttributeError (u "'list' object has no attribute 'get'")))
  | JStr _ => Raise (PyExn (AttributeError (u "'str' object has no attribute 'get'")))
  | JNull => Raise (PyExn (AttributeError (u "'NoneType' object has no attribute 'get'")))
  | JBool _ => Raise (PyExn (AttributeError (u "'bool' object has no attribute 'get'")))
  | JInt _ => Raise (PyExn (AttributeError (u "'int' object has no attribute 'get'")))
  | JFloat _ => Raise (PyExn (AttributeError (u "'float' object has no attribute 'get'")))
  end.

(** [str(missing_fields)]: the repr of a list of field names. *)
Definition repr_fields (fields : list pystr) : pystr :=
  u "[" ++ join (u ", ") (map (fun f => u "'" ++ f ++ u "'") fields) ++ u "]".

Definition is_none (v : json) : bool :=
  match v with JNull => true | _ => false end.

(** Lines 134-176, the body of the [try]. *)
Definition call_llm_body (self : LLMNewsParser) (ev : env) (clean_text : pystr)
    : result exn json :=
  let* choices := lift (create ev (build_request self clean_text)) in
  let* choice0 :=
    match choices with
    | c :: _ => Return c
    | [] => Raise (PyExn (IndexError (u "list index out of range")))
    end in
  let* content :=
    match choice0 with
    | Some c => Return c
    | None =>
      Raise (PyExn (AttributeError
                      (u "'NoneType' object has no attribute 'strip'")))
    end in
  let llm_output := strip content in
  match llm_output with
  | [] => Raise (ParseError (u "llm_request") (u "LLM返回空内容"))
  | _ =>
    let* structured_data :=
      match json_loads ev llm_output with
      | Return v => Return v
      | Raise e => json_decode_except llm_output e
      end in
    let* missing_fields := missing structured_data required_fields in
    match missing_fields with
    | _ :: _ =>
      Raise (ParseError (u "json_parse")
               (u "JSON缺少必填字段：" ++ repr_fields missing_fields
                  ++ u "，解析结果：" ++ fmt_value ev structured_data))
    | [] =>
      let* title := get structured_data (u "title") in
      let* content := get structured_data (u "content") in
      if is_none title && is_none content then
        Raise (ParseError (u "not_news")
                 (u "该页面不是有效的新闻内容（无标题和正文）"))
      else Return structured_data
    end
  end.

(** Lines 178-187: the [except] clauses of [_call_llm], in source order. *)
Definition call_llm_except (self : LLMNewsParser) (ev : env) (e : exn)
    : result exn json :=
  match e with
  | PyExn (APITimeoutError _) =>
    Raise (ParseError (u "llm_request")
             (u "LLM请求超时（" ++ fmt_float ev (timeout self) ++ u "秒）"))
  | PyExn (APIConnectionError _) =>
    Raise (ParseError (u "llm_request") (u "LLM API连接失败（网络/地址错误）"))
  | PyExn (APIError message) =>
    Raise (ParseError (u "llm_request") (u "LLM API错误：" ++ message))
  | ParseError _ _ => Raise e
  | _ =>
    Raise (ParseError (u "llm_request")
             (u "LLM交互未知错误：" ++ slice_to (str_exn e) 200))
  end.

Definition _call_llm (self : LLMNewsParser) (ev : env) (clean_text : pystr)
    : result exn json :=
  let clean_text := bound_text self clean_text in
  match call_llm_body self ev clean_text with
  | Return v => Return v
  | Raise e => call_llm_except self ev e
  end.

(** **** [parse] *)

(** Lines 192-200, the body of the [try]. *)
Definition parse_body (self : LLMNewsParser) (ev : env) (raw_data : pystr)
    : result exn json :=
  let* clean_text := _clean_html raw_data in
  let* structured_data := _call_llm self ev clean_text in
  Return structured_data.

(** Lines 202-208: [except ParseError] re-raises, [except Exception] wraps. *)
Definition parse_except (e : exn) : result exn json :=
  match e with
  | ParseError _ _ => Raise e
  | _ =>
    let error_msg := u "解析未预期错误：" ++ slice_to (str_exn e) 200 in
    Raise (ParseError (u "unknown") error_msg)
  end.

Definition parse (self : LLMNewsParser) (ev : env) (raw_data : pystr)
    : result exn json :=
  match parse_body self ev raw_data with
  | Return v => Return v
  | Raise e => parse_except e
  end.

(** The stages a [ParseError] can name. *)
Definition stages : list pystr :=
  map u ["html_clean"; "llm_request"; "json_parse"; "not_news"; "unknown"]%string.

(** [json.loads] as decided by [Json.decode]. *)
Definition loads_model (s : pystr) : result py_exn json :=
  match Json.decode s with
  | Some v => Return v
  | None => Raise (JSONDecodeError (u "Expecting value"))
  end.

(** Vocabulary of the specification and sample data. *)

(** The two halves of the body of [_clean_html]: the text that bs4 hands
    over (lines 63-73) and the three normalisation steps (lines 77-81). *)
Definition extracted_text (raw_html : pystr) : pystr :=
  Html.get_text [10%N]
    (Html.extract_comments
       (Html.decompose_all removed_tags (Html.BeautifulSoup raw_html))).

Definition normalize (clean_text : pystr) : pystr :=
  strip (Re.sub_class_plus line_feed [10%N]
           (Re.sub_class_plus space_or_tab [32%N] clean_text)).

(** [_clean_html] for any behaviour of the library.  Lines 63-73
    ([BeautifulSoup], [decompose], [extract], [get_text]) hand over a text
    or raise, as [soup_text] says; lines 77-89 are those of [_clean_html].
    [_clean_html] is this function with the model [Html], which never
    raises, as the library. *)
Definition clean_html_body_with (soup_text : pystr -> result py_exn pystr)
    (raw_html : pystr) : result exn pystr :=
  let* clean_text := lift (soup_text raw_html) in
  let clean_text := Re.sub_class_plus space_or_tab [32%N] clean_text in
  let clean_text := Re.sub_class_plus line_feed [10%N] clean_text in
  let clean_text := strip clean_text in
  match clean_text with
  | [] => Raise (ParseError (u "html_clean") (u "HTML清理后无有效文本"))
  | _ => Return clean_text
  end.

Definition clean_html_with (soup_text : pystr -> result py_exn pystr)
    (raw_html : pystr) : result exn pystr :=
  match clean_html_body_with soup_text raw_html with
  | Return t => Return t
  | Raise e => clean_html_except e
  end.

Definition soup_text_model (raw_html : pystr) : result py_exn pystr :=
  Return (extracted_text raw_html).

(** A library that rejects its input with the message [msg], as
    [html.parser] does for [<![x]>hello]. *)
Definition soup_text_rejecting (msg raw_html : pystr)
    : result py_exn pystr :=
  Raise (OtherException msg).

(** Text without markup: no [<] and no [&]. *)
Definition plain_text (x : pystr) : bool :=
  forallb (fun c => negb (c =? 60)%N && negb (c =? 38)%N) x.

(** The text that section 4.2, step 2 lets through: the first [n] characters
    of a text that is longer than [n]. *)
Definition prefix_bound (n : Z) (clean_text : pystr) : pystr :=
  if (len clean_text >? n)%Z then firstn (Z.to_nat n) clean_text
  else clean_text.

(** The parser built by the test at the end of the source file. *)
Definition default_parser : LLMNewsParser :=
  {| model := u "gpt-3.5-turbo"; temperature := 0; timeout := 30;
     max_text_length := 8000 |}.

(** An environment whose service answers every request with [answer] and
    whose [json.loads] is [loads_model].  The two formatting functions are
    fixed arbitrarily; the runs below do not reach them. *)
Definition answering (answer : pystr) : env :=
  {| create := fun _ => Return [Some answer];
     json_loads := loads_model;
     fmt_float := fun _ => u "30.0";
     fmt_value := fun _ => [] |}.

Definition sample_markup : pystr :=
  u "<html><body><script>x</script><p>Hello   world</p>"
    ++ [10%N; 10%N] ++ u "<p>Line2</p></body></html>".

Definition sample_record_text : pystr :=
  uq "{'title':'T','content':'C','publish_time':null,'author':null}".

Definition sample_record : json :=
  JDict [ (u "title", JStr (u "T")); (u "content", JStr (u "C"));
          (u "publish_time", JNull); (u "author", JNull) ].

(** The record wrapped in a Markdown code fence. *)
Definition fenced_answer : pystr :=
  u "```json" ++ [10%N] ++ sample_record_text ++ [10%N] ++ u "```".

(** The record with commentary around it. *)
Definition chatty_answer : pystr :=
  u "Here is the result: " ++ sample_record_text ++ u " Hope this helps.".

Definition not_news_answer : pystr :=
  uq "{'title':null,'content':null,'publish_time':'2026-02-20T09:30:00+08:00','author':'A'}".

(** What the service answered, as [_call_llm] reads it: the stripped content
    of the first choice, which is not empty. *)
Definition service_output (self : LLMNewsParser) (ev : env)
    (clean_text llm_output : pystr) : Prop :=
  exists content rest,
    create ev (build_request self (bound_text self clean_text))
    = Return (Some content :: rest)
    /\ strip content = llm_output /\ llm_output <> [].

Definition short_parser : LLMNewsParser :=
  {| model := u "gpt-3.5-turbo"; temperature := 0; timeout := 30;
     max_text_length := 5 |}.

Definition not_news_items : list (pystr * json) :=
  [ (u "title", JNull); (u "content", JNull);
    (u "publish_time", JStr (u "2026-02-20T09:30:00+08:00"));
    (u "author", JStr (u "A")) ].

Definition name_error_reason : pystr :=
  u "LLM交互未知错误：name 'clean_json_str' is not defined".

End Parser.

(* ================================================================== *)
(** ** Further vocabulary *)

Module FetcherVocab.

Import Fetcher.

(** Lines 113-114: the payload passes when no validator is configured or the
    validator returns true. *)
Definition accepted (self : NewsFetcher) (content : bytes) : bool :=
  match content_validator self with
  | Some validate => validate content
  | None => true
  end.

(** The reason given to [ContentValidationError] on line 117. *)
Definition rejection_reason (content : bytes) : pystr :=
  u "内容未通过校验（长度: " ++ str_int (Z.of_nat (List.length content))
    ++ u " 字节）".

(** The requests numbered [k], [k+1], ... of one run. *)
Definition requests_from (nw : net) (source_url : pystr) (k n : nat)
    : list request :=
  map (fun i => build_request nw i source_url) (seq k n).


(** A transport that answers 503 to its first [failures] requests and then
    200 with [content]; a fetcher without validator. *)
Definition flaky (failures : nat) (content : bytes) : net :=
  {| http_get := fun k _ =>
       if Nat.ltb k failures then Response 503 [] else Response 200 content;
     draw := fun k => k |}.

Definition no_validator : NewsFetcher :=
  {| timeout := 10; max_retries := 3; backoff_base := 1;
     content_validator := None |}.

Definition hello_bytes : bytes := [Byte.x68; Byte.x69].

(** What a run [R] of the loop over [n] attempts from the world [w] has done,
    for any transport: [g] requests, numbered consecutively; one sleep less
    than requests; a request as its last event; and an outcome decided by
    the last request. *)
Definition run_facts (self : NewsFetcher) (nw : net) (source_url : pystr)
    (n : nat) (last_error_reason : pystr) (w : world)
    (R : result fetch_exn bytes * world) : Prop :=
  exists g new,
    snd R = {| sent := sent w + g; events := events w ++ new |}
    /\ (g <= n)%nat /\ (1 <= n -> 1 <= g)%nat
    /\ gets new = requests_from nw source_url (sent w) g
    /\ List.length (sleeps new) = (g - 1)%nat
    /\ match fst R with
       | Return content =>
         exists status_code,
           (1 <= g)%nat
           /\ http_get nw (sent w + g - 1) (build_request nw (sent w + g - 1) source_url)
              = Response status_code content
           /\ is_success status_code = true
           /\ accepted self content = true
       | Raise (ContentValidationError_ url reason) =>
         exists status_code content,
           (1 <= g)%nat
           /\ http_get nw (sent w + g - 1) (build_request nw (sent w + g - 1) source_url)
              = Response status_code content
           /\ is_success status_code = true
           /\ accepted self content = false
           /\ url = source_url
           /\ reason = u "内容校验失败: " ++ rejection_reason content
       | Raise (FetchError url reason) =>
         url = source_url /\ g = n
         /\ reason = reason_after nw source_url n (sent w) last_error_reason
         /\ forall j, (j < n)%nat ->
              retryable (http_get nw (sent w + j) (build_request nw (sent w + j) source_url))
              = true
       | Raise (OverflowError msg) => (1026 <= max_retries self)%Z
       end
    /\ ((1 <= g)%nat -> exists front r, new = front ++ [EvGet r]).

End FetcherVocab.

Module ParserVocab.

Import Json Parser.

(** The required fields that a decoded object lacks. *)
Definition absent_fields (items : list (pystr * json)) : list pystr :=
  filter (fun f => match dict_get items f with Some _ => false | None => true end)
    required_fields.

(** The reason that [_call_llm] gives for an exception of the service call
    (lines 178-187). *)
Definition call_failure_reason (self : LLMNewsParser) (ev : env) (p : py_exn)
    : pystr :=
  match p with
  | APITimeoutError _ =>
    u "LLM请求超时（" ++ fmt_float ev (timeout self) ++ u "秒）"
  | APIConnectionError _ => u "LLM API连接失败（网络/地址错误）"
  | APIError message => u "LLM API错误：" ++ message
  | _ => u "LLM交互未知错误：" ++ slice_to (str_py p) 200
  end.

(** Two environments that cannot be told apart by one request. *)
Definition agree_on (rq : chat_request) (ev ev' : env) : Prop :=
  create ev rq = create ev' rq
  /\ (forall s, json_loads ev s = json_loads ev' s)
  /\ (forall q, fmt_float ev q = fmt_float ev' q)
  /\ (forall v, fmt_value ev v = fmt_value ev' v).

(** Environments for sample runs: a service that raises, one that answers
    without choices. *)
Definition raising (p : py_exn) : env :=
  {| create := fun _ => Raise p;
     json_loads := loads_model;
     fmt_float := fun _ => u "30.0";
     fmt_value := fun _ => [] |}.

Definition no_choices : env :=
  {| create := fun _ => Return [];
     json_loads := loads_model;
     fmt_float := fun _ => u "30.0";
     fmt_value := fun _ => [] |}.

(** A service that answers requests for one model only. *)
Definition picky (answer : pystr) : env :=
  {| create := fun rq =>
       if eqb (rq_model rq) (u "gpt-3.5-turbo") then Return [Some answer]
       else Raise (APIError (u "model not found"));
     json_loads := loads_model;
     fmt_float := fun _ => u "30.0";
     fmt_value := fun _ => [] |}.

Definition missing_author_items : list (pystr * json) :=
  [ (u "title", JStr (u "T")); (u "content", JStr (u "C"));
    (u "publish_time", JNull) ].

Definition sample_text : pystr := u "Hello world" ++ [10%N] ++ u "Line2".

Definition missing_author_answer : pystr :=
  uq "{'title':'T','content':'C','publish_time':null}".

End ParserVocab.

Module FallbackVocab.

Import Parser.

(** Three backticks, and the word that may follow them. *)
Definition ticks : pystr := [96%N; 96%N; 96%N].
Definition json_word : pystr := [106%N; 115%N; 111%N; 110%N].

Definition lacks (ch : char) (s : pystr) : bool :=
  forallb (fun c => negb (c =? ch)%N) s.

(** [json_pattern] with its literals decoded, and two of its tails. *)
Definition after_group : list Re.atom :=
  [Re.StarGreedy isspace; Re.Lit ticks].

Definition from_lazy : list Re.atom :=
  Re.StarLazy (fun _ => true) :: Re.GroupClose :: after_group.

Definition fence_pattern : list Re.atom :=
  [ Re.Lit ticks; Re.OptLit json_word; Re.StarGreedy isspace; Re.GroupOpen ]
    ++ from_lazy.

(** An answer with a fenced block: text, the opening fence with its language
    word, white space, the block, white space, the closing fence, text. *)
Definition fenced (before w1 body w2 after : pystr) : pystr :=
  before ++ ticks ++ json_word ++ w1 ++ body ++ w2 ++ ticks ++ after.

(** An answer with an object between other text. *)
Definition embedded (before inside after : pystr) : pystr :=
  before ++ [123%N] ++ inside ++ [125%N] ++ after.

End FallbackVocab.

(* ================================================================== *)
(** ** The orchestrator ([src/test-main.py]) *)

Module Orchestrator.

(** What [process_single_url] tells about one URL.  The function returns
    [None]; its result is the record it prints or the error it logs. *)
Inductive report : Type :=
| Printed (structured_data : Json.json)
| FetchFailed (reason : pystr)
| ParseFailed (step reason : pystr)
| Unexpected (description : pystr).

(** Exceptions that can reach the [except] clauses of lines 59-67. *)
Inductive pipeline_exn : Type :=
| FromFetch (e : Fetcher.fetch_exn)
| FromParse (e : Parser.exn)
| FromPrint (e : Parser.py_exn).

Definition raised_by_fetch {A} (r : result Fetcher.fetch_exn A)
    : result pipeline_exn A :=
  match r with
  | Return a => Return a
  | Raise e => Raise (FromFetch e)
  end.

Definition raised_by_parse {A} (r : result Parser.exn A)
    : result pipeline_exn A :=
  match r with
  | Return a => Return a
  | Raise e => Raise (FromParse e)
  end.

Definition raised_by_print {A} (r : result Parser.py_exn A)
    : result pipeline_exn A :=
  match r with
  | Return a => Return a
  | Raise e => Raise (FromPrint e)
  end.

(** Lines 48-57, the body of the [try].  [decode] stands for
    [bytes.decode("utf-8", errors="ignore")], and [show] for line 57,
    [print(json.dumps(structured_data, ensure_ascii=False, indent=2))], which
    raises when the output stream cannot encode the text (a lone surrogate in
    the record, a stream that is not UTF-8). *)
Definition process_body (fetcher : Fetcher.NewsFetcher) (nw : Fetcher.net)
    (parser : Parser.LLMNewsParser) (ev : Parser.env)
    (decode : Fetcher.bytes -> pystr)
    (show : Json.json -> result Parser.py_exn unit)
    (url : pystr) (w : Fetcher.world)
    : result pipeline_exn Json.json * Fetcher.world :=
  let (fetched, w1) := Fetcher.fetch fetcher nw url w in
  (let* raw_html := raised_by_fetch fetched in
   let* structured_data :=
     raised_by_parse (Parser.parse parser ev (decode raw_html)) in
   let* printed := raised_by_print (show structured_data) in
   Return structured_data, w1).

(** Lines 59-67: [except FetchError] (which also takes its subclass
    [ContentValidationError]) logs [e.reason], [except ParseError] logs
    [e.step] and [e.reason], and [except Exception] takes the rest with the
    first 200 characters of [str(e)]. *)
Definition process_except (e : pipeline_exn) : report :=
  match e with
  | FromFetch (Fetcher.FetchError _ reason) => FetchFailed reason
  | FromFetch (Fetcher.ContentValidationError_ _ reason) => FetchFailed reason
  | FromFetch (Fetcher.OverflowError msg) => Unexpected (slice_to msg 200)
  | FromParse (Parser.ParseError step reason) => ParseFailed step reason
  | FromParse (Parser.PyExn e') =>
    Unexpected (slice_to (Parser.str_py e') 200)
  | FromPrint e' => Unexpected (slice_to (Parser.str_py e') 200)
  end.

Definition process_single_url (fetcher : Fetcher.NewsFetcher)
    (nw : Fetcher.net) (parser : Parser.LLMNewsParser) (ev : Parser.env)
    (decode : Fetcher.bytes -> pystr)
    (show : Json.json -> result Parser.py_exn unit)
    (url : pystr) (w : Fetcher.world)
    : report * Fetcher.world :=
  let (r, w1) := process_body fetcher nw parser ev decode show url w in
  match r with
  | Return structured_data => (Printed structured_data, w1)
  | Raise e => (process_except e, w1)
  end.

(** [bytes.strip()]: the white space of [bytes] is space, tab, line feed,
    carriage return, vertical tab and form feed. *)
Definition byte_space (b : Byte.byte) : bool :=
  let n := Byte.to_N b in ((n =? 32) || ((9 <=? n) && (n <=? 13)))%N.

Fixpoint bytes_lstrip (s : Fetcher.bytes) : Fetcher.bytes :=
  match s with
  | [] => []
  | b :: t => if byte_space b then bytes_lstrip t else s
  end.

Fixpoint bytes_rstrip (s : Fetcher.bytes) : Fetcher.bytes :=
  match s with
  | [] => []
  | b :: t =>
    match bytes_rstrip t with
    | [] => if byte_space b then [] else [b]
    | r => b :: r
    end
  end.

Definition bytes_strip (s : Fetcher.bytes) : Fetcher.bytes :=
  bytes_rstrip (bytes_lstrip s).

(** Line 88: [lambda content: len(content) > 100 and content.strip() != b""]. *)
Definition main_validator (content : Fetcher.bytes) : bool :=
  Nat.ltb 100 (List.length content)
  && match bytes_strip content with [] => false | _ => true end.

(** Lines 74-89: the parser and the fetcher that [main] builds. *)
Definition main_parser : Parser.LLMNewsParser :=
  {| Parser.model := u "gpt-3.5-turbo"; Parser.temperature := 0;
     Parser.timeout := 30; Parser.max_text_length := 8000 |}.

Definition main_fetcher : Fetcher.NewsFetcher :=
  {| Fetcher.timeout := 10; Fetcher.max_retries := 3;
     Fetcher.backoff_base := 1;
     Fetcher.content_validator := Some main_validator |}.

(** A decoder for sample runs: every byte is one character; and a print
    that succeeds. *)
Definition latin1 (content : Fetcher.bytes) : pystr := map Byte.to_N content.

Definition quiet_print (v : Json.json) : result Parser.py_exn unit :=
  Return tt.

End Orchestrator.

(* ================================================================== *)
(** * Properties *)

(** ** Strings *)

Module PyStrFacts.

Lemma eqb_eq (a b : pystr) : eqb a b = true <-> a = b.
Proof.
  revert b; induction a as [|x a IH]; intros [|y b]; simpl; split; intro H;
    try reflexivity; try discriminate.
  - apply andb_true_iff in H as [Hx Hr]. apply N.eqb_eq in Hx.
    apply IH in Hr. now subst.
  - injection H as -> ->. rewrite N.eqb_refl. simpl. now apply IH.
Qed.

Lemma eqb_refl (a : pystr) : eqb a a = true.
Proof. now apply eqb_eq. Qed.

Lemma slice_to_nonneg (s : pystr) (n : Z) :
  (0 <= n)%Z -> slice_to s n = firstn (Z.to_nat n) s.
Proof.
  intro H. unfold slice_to.
  destruct (n <? 0)%Z eqn:E; [apply Z.ltb_lt in E; lia | reflexivity].
Qed.

Lemma slice_to_length (s : pystr) (n : Z) :
  (0 <= n)%Z -> (List.length (slice_to s n) <= Z.to_nat n)%nat.
Proof.
  intro H. rewrite slice_to_nonneg by assumption. apply firstn_le_length.
Qed.

(** [strip] *)

Lemma lstrip_starts_clean (s : pystr) : starts_clean (lstrip s) = true.
Proof.
  induction s as [|c t IH]; simpl; [reflexivity|].
  destruct (isspace c) eqn:E; [exact IH | simpl; now rewrite E].
Qed.

Lemma lstrip_fixed (s : pystr) : starts_clean s = true -> lstrip s = s.
Proof.
  destruct s as [|c t]; simpl; [reflexivity|].
  intro H. apply negb_true_iff in H. now rewrite H.
Qed.

Lemma rstrip_starts_clean (s : pystr) :
  starts_clean s = true -> starts_clean (rstrip s) = true.
Proof.
  destruct s as [|c t]; simpl; [reflexivity|].
  intro H. destruct (rstrip t); [|exact H].
  apply negb_true_iff in H. rewrite H. simpl. now rewrite H.
Qed.

Lemma rstrip_cons (c : char) (t : pystr) :
  rstrip (c :: t)
  = match rstrip t with
    | [] => if isspace c then [] else [c]
    | r => c :: r
    end.
Proof. reflexivity. Qed.

Lemma rstrip_idem (s : pystr) : rstrip (rstrip s) = rstrip s.
Proof.
  induction s as [|c t IH]; [reflexivity|].
  rewrite rstrip_cons.
  destruct (rstrip t) as [|d r] eqn:E.
  - destruct (isspace c) eqn:Ec; [reflexivity|].
    rewrite rstrip_cons. simpl. now rewrite Ec.
  - rewrite rstrip_cons, IH. reflexivity.
Qed.

Lemma strip_starts_clean (s : pystr) : starts_clean (strip s) = true.
Proof. apply rstrip_starts_clean, lstrip_starts_clean. Qed.

Lemma strip_idem (s : pystr) : strip (strip s) = strip s.
Proof.
  unfold strip at 1. rewrite lstrip_fixed by apply strip_starts_clean.
  unfold strip. apply rstrip_idem.
Qed.

Lemma lstrip_forallb (P : char -> bool) (s : pystr) :
  forallb P s = true -> forallb P (lstrip s) = true.
Proof.
  induction s as [|c t IH]; simpl; [reflexivity|].
  intro H. apply andb_true_iff in H as [Hc Ht].
  destruct (isspace c); [now apply IH | simpl; now rewrite Hc, Ht].
Qed.

Lemma rstrip_forallb (P : char -> bool) (s : pystr) :
  forallb P s = true -> forallb P (rstrip s) = true.
Proof.
  induction s as [|c t IH]; simpl; [reflexivity|].
  intro H. apply andb_true_iff in H as [Hc Ht]. specialize (IH Ht).
  destruct (rstrip t) as [|d r].
  - destruct (isspace c); simpl; [reflexivity | now rewrite Hc].
  - cbn [forallb] in *. now rewrite Hc, IH.
Qed.

End PyStrFacts.

(** ** Substitution of runs *)

Module ReFacts.

Import Re.

Section OneClass.

Variable cls : char -> bool.
Variable r : N.
Hypothesis r_in_class : cls r = true.

(** A collapsed string is left alone. *)
Lemma sub_runs_fixed (b : bool) (s : pystr) :
  collapsed cls r b s = true -> sub_runs cls [r] b s = s.
Proof.
  revert b. induction s as [|c t IH]; intros b H; cbn [sub_runs collapsed] in *.
  - reflexivity.
  - destruct (cls c).
    + apply andb_true_iff in H as [H Ht]. apply andb_true_iff in H as [Hb Hc].
      apply negb_true_iff in Hb. apply N.eqb_eq in Hc. subst b c.
      cbn [app]. f_equal. now apply IH.
    + f_equal. now apply IH.
Qed.

(** The result of the substitution is collapsed. *)
Lemma sub_runs_collapsed (b : bool) (s : pystr) :
  collapsed cls r b (sub_runs cls [r] b s) = true.
Proof.
  revert b. induction s as [|c t IH]; intro b; cbn [sub_runs].
  - reflexivity.
  - destruct (cls c) eqn:Ec.
    + destruct b; [apply IH|].
      cbn [app collapsed]. rewrite r_in_class, N.eqb_refl. apply IH.
    + cbn [collapsed]. rewrite Ec. apply IH.
Qed.

Lemma collapsed_weaken (b : bool) (s : pystr) :
  collapsed cls r b s = true -> collapsed cls r false s = true.
Proof.
  destruct s as [|c t]; cbn [collapsed]; [reflexivity|].
  destruct (cls c); [|trivial].
  intro H. apply andb_true_iff in H as [H Ht].
  apply andb_true_iff in H as [_ Hc]. now rewrite Hc, Ht.
Qed.

Lemma lstrip_collapsed (b : bool) (s : pystr) :
  collapsed cls r b s = true -> collapsed cls r false (lstrip s) = true.
Proof.
  revert b. induction s as [|c t IH]; intros b H; cbn [lstrip].
  - reflexivity.
  - destruct (isspace c).
    + cbn [collapsed] in H. destruct (cls c).
      * apply andb_true_iff in H as [_ Ht]. now apply (IH true).
      * now apply (IH false).
    + now apply collapsed_weaken with b.
Qed.

Lemma rstrip_collapsed (b : bool) (s : pystr) :
  collapsed cls r b s = true -> collapsed cls r b (rstrip s) = true.
Proof.
  revert b. induction s as [|c t IH]; intros b H; [reflexivity|].
  rewrite PyStrFacts.rstrip_cons. cbn [collapsed] in H.
  destruct (rstrip t) as [|d q] eqn:E.
  - destruct (isspace c); [reflexivity|]. cbn [collapsed].
    destruct (cls c); [|reflexivity].
    apply andb_true_iff in H as [H _]. now rewrite H.
  - cbn [collapsed]. fold (collapsed cls r). destruct (cls c).
    + apply andb_true_iff in H as [H Ht]. rewrite H.
      apply (IH true) in Ht. exact Ht.
    + apply (IH false) in H. exact H.
Qed.

Lemma strip_collapsed (b : bool) (s : pystr) :
  collapsed cls r b s = true -> collapsed cls r false (strip s) = true.
Proof.
  intro H. unfold strip. apply rstrip_collapsed.
  now apply lstrip_collapsed with b.
Qed.

Lemma sub_runs_forallb (P : char -> bool) (b : bool) (s : pystr) :
  P r = true -> forallb P s = true ->
  forallb P (sub_runs cls [r] b s) = true.
Proof.
  intro Hr. revert b. induction s as [|c t IH]; intros b H; cbn [sub_runs].
  - reflexivity.
  - cbn [forallb] in H. apply andb_true_iff in H as [Hc Ht].
    destruct (cls c).
    + destruct b; [now apply IH|].
      cbn [app forallb]. rewrite Hr. now apply IH.
    + cbn [forallb]. rewrite Hc. now apply IH.
Qed.

End OneClass.

Section TwoClasses.

Variables cls1 cls2 : char -> bool.
Variables r1 r2 : N.
Hypothesis disjoint : forall c, cls2 c = true -> cls1 c = false.
Hypothesis r2_in_class : cls2 r2 = true.

(** Collapsing the runs of a second class keeps the first class collapsed:
    one character of every run stays between what the run separated. *)
Lemma sub_runs_keeps_collapsed (p b : bool) (s : pystr) :
  collapsed cls1 r1 p s = true ->
  (b = true -> p = false) ->
  collapsed cls1 r1 p (sub_runs cls2 [r2] b s) = true.
Proof.
  revert p b. induction s as [|c t IH]; intros p b H Hb; cbn [sub_runs].
  - reflexivity.
  - cbn [collapsed] in H. destruct (cls2 c) eqn:E2.
    + rewrite (disjoint E2) in H. destruct b.
      * rewrite (Hb eq_refl) in *. apply IH; [exact H | reflexivity].
      * cbn [app collapsed]. rewrite (disjoint r2_in_class).
        apply IH; [exact H | reflexivity].
    + cbn [collapsed]. destruct (cls1 c).
      * apply andb_true_iff in H as [H Ht]. rewrite H.
        apply IH; [exact Ht | discriminate].
      * apply IH; [exact H | discriminate].
Qed.

End TwoClasses.

End ReFacts.

(** ** Markup-free input *)

Module HtmlFacts.

Import Html.

Lemma span_all (p : char -> bool) (s : pystr) :
  forallb p s = true -> span p s = (s, []).
Proof.
  induction s as [|c t IH]; cbn [span forallb]; [reflexivity|].
  intro H. apply andb_true_iff in H as [Hc Ht].
  now rewrite Hc, (IH Ht).
Qed.

Lemma tokenize_nil (fuel : nat) (cdata : option pystr) :
  tokenize fuel cdata [] = [].
Proof. destruct fuel; reflexivity. Qed.

(** Text without [<] is one data event. *)
Lemma tokenize_plain (fuel : nat) (s : pystr) :
  forallb not_lt s = true -> s <> [] ->
  tokenize (S fuel) None s = [TData s].
Proof.
  intros H Hne. destruct s as [|c t]; [contradiction|].
  cbn [tokenize].
  pose proof H as H'. cbn [forallb] in H'.
  apply andb_true_iff in H' as [Hc _]. unfold not_lt in Hc.
  apply negb_true_iff in Hc. rewrite Hc.
  rewrite (span_all _ _ H). now rewrite tokenize_nil.
Qed.

Lemma feed_plain (s : pystr) :
  forallb not_lt s = true -> s <> [] -> feed s = [TData s].
Proof.
  intros H Hne. unfold feed.
  replace (2 * List.length s + 2)%nat with (S (2 * List.length s + 1))%nat
    by lia.
  now apply tokenize_plain.
Qed.

Lemma ascii_space_isspace (c : char) :
  ascii_space c = true -> isspace c = true.
Proof.
  unfold ascii_space. intro H.
  repeat (apply orb_true_iff in H as [H|H]);
    apply N.eqb_eq in H; subst c; reflexivity.
Qed.

(** A string that starts with something else than white space is not made
    of white space. *)
Lemma not_all_space (s : pystr) :
  s <> [] -> starts_clean s = true -> forallb ascii_space s = false.
Proof.
  destruct s as [|c t]; [contradiction|]. intros _ H.
  cbn [starts_clean] in H. apply negb_true_iff in H.
  cbn [forallb]. destruct (ascii_space c) eqn:E; [|reflexivity].
  apply ascii_space_isspace in E. congruence.
Qed.

End HtmlFacts.

(** ** The fetcher *)

Module FetcherSpec.

Import Fetcher.

Section Run.

Variable self : NewsFetcher.
Variable nw : net.
Variable source_url : pystr.




Lemma gets_app (a b : list event) : gets (a ++ b) = gets a ++ gets b.
Proof. unfold gets. apply flat_map_app. Qed.

Lemma sleeps_app (a b : list event) : sleeps (a ++ b) = sleeps a ++ sleeps b.
Proof. unfold sleeps. apply flat_map_app. Qed.






(** Below the first power of two that does not convert to a float, the
    delay is the product. *)
Lemma backoff_time_small (attempt : Z) :
  (attempt < 1024)%Z -> backoff_time self attempt = Return (delay self attempt).
Proof.
  intro H. unfold backoff_time, float_of_power.
  destruct (1024 <=? attempt)%Z eqn:E; [apply Z.leb_le in E; lia|].
  reflexivity.
Qed.

Lemma backoff_time_large (attempt : Z) :
  (1024 <= attempt)%Z ->
  backoff_time self attempt
  = Raise (OverflowError (u "int too large to convert to float")).
Proof.
  intro H. unfold backoff_time, float_of_power.
  destruct (1024 <=? attempt)%Z eqn:E; [reflexivity|].
  apply Z.leb_gt in E. lia.
Qed.

Hypothesis always_fails : forall k r, retryable (http_get nw k r) = true.
Hypothesis small : (max_retries self <= 1025)%Z.



End Run.

Lemma py_range_first (n : Z) :
  (1 <= n)%Z -> exists rest, py_range n = 0%Z :: rest.
Proof.
  intro H. unfold py_range. destruct (Z.to_nat n) as [|k] eqn:E; [lia|].
  simpl. eexists. reflexivity.
Qed.


(** C4.  With at least one attempt allowed, a transport that succeeds on every
    attempt and a configured validator that rejects what it delivers, [fetch]
    raises [ContentValidationError] after one request, without any sleep. *)
Theorem validator_rejection_not_retried (self : NewsFetcher) (nw : net)
    (source_url : pystr) (w : world) (validate : bytes -> bool) :
  (1 <= max_retries self)%Z ->
  content_validator self = Some validate ->
  (forall k r, exists status_code body,
      http_get nw k r = Response status_code body
      /\ is_success status_code = true /\ validate body = false) ->
  exists status_code body,
    http_get nw (sent w) (build_request nw (sent w) source_url)
    = Response status_code body
    /\ fetch self nw source_url w
    = (Raise (ContentValidationError source_url
                (u "内容未通过校验（长度: "
                   ++ str_int (Z.of_nat (List.length body)) ++ u " 字节）")),
       {| sent := S (sent w);
          events := events w ++ [EvGet (build_request nw (sent w) source_url)] |}).
Proof.
  intros Hn Hv Hok.
  destruct (py_range_first Hn) as (rest & Hr).
  destruct (Hok (sent w) (build_request nw (sent w) source_url))
    as (st & body & Hget & Hst & Hrej).
  exists st, body. split; [exact Hget|].
  unfold fetch. rewrite Hr. cbn [fetch_loop].
  unfold attempt_body. rewrite Hget, Hst, Hv, Hrej. reflexivity.
Qed.

(** C10.  With [max_retries = 0] the loop body never runs: no request is sent,
    nothing is slept, and [FetchError] is raised with the empty reason. *)
Theorem fetch_zero_retries (self : NewsFetcher) (nw : net)
    (source_url : pystr) (w : world) :
  max_retries self = 0%Z ->
  fetch self nw source_url w = (Raise (FetchError source_url []), w)
  /\ gets (events (snd (fetch self nw source_url w))) = gets (events w)
  /\ sleeps (events (snd (fetch self nw source_url w))) = sleeps (events w).
Proof.
  intro H. unfold fetch. rewrite H. simpl. repeat split.
Qed.


Lemma validator_rejection_not_retried_witness :
  fetch three_tries always_200_empty some_url world0
  = (Raise (ContentValidationError some_url
              (u "内容未通过校验（长度: 0 字节）")),
     {| sent := 1;
        events := [EvGet (build_request always_200_empty 0 some_url)] |}).
Proof.
  assert (H1 : (1 <= max_retries three_tries)%Z) by (simpl; lia).
  assert (H3 : forall k r, exists status_code body,
               http_get always_200_empty k r = Response status_code body
               /\ is_success status_code = true
               /\ longer_than_100 body = false)
    by (intros; exists 200%Z, []; repeat split).
  destruct (validator_rejection_not_retried three_tries always_200_empty
              some_url world0 H1 eq_refl H3) as (st & body & Hget & Hrun).
  rewrite Hrun. injection Hget as _ <-. reflexivity.
Defined.

Lemma fetch_zero_retries_witness :
  fetch no_tries always_200_empty some_url world0
  = (Raise (FetchError some_url []), world0).
Proof.
  apply (fetch_zero_retries no_tries always_200_empty some_url world0).
  reflexivity.
Defined.

End FetcherSpec.

(** ** The parser *)

Module ParserSpec.

Import Json Parser.

(** C5.  On the markup of the specification the cleaning step returns
    [Hello world], a line feed, [Line2]: the script is gone, the three spaces
    are one, the blank line is gone and nothing surrounds the text. *)
Theorem clean_html_sample :
  _clean_html sample_markup = Return (u "Hello world" ++ [10%N] ++ u "Line2").
Proof. vm_compute. reflexivity. Qed.

Lemma prefix_bound_correct (self : LLMNewsParser) (clean_text : pystr) :
  (0 <= max_text_length self)%Z ->
  bound_text self clean_text = prefix_bound (max_text_length self) clean_text.
Proof.
  intro H. unfold bound_text, prefix_bound.
  destruct (len clean_text >? max_text_length self)%Z; [|reflexivity].
  now apply PyStrFacts.slice_to_nonneg.
Qed.

(** *** Failures of the extraction step *)

Section Extraction.

Variable self : LLMNewsParser.
Variable ev : env.

Lemma call_llm_after_output (clean_text llm_output : pystr) :
  service_output self ev clean_text llm_output ->
  _call_llm self ev clean_text
  = match
      (let* structured_data :=
         match json_loads ev llm_output with
         | Return v => Return v
         | Raise e => json_decode_except llm_output e
         end in
       let* missing_fields := missing structured_data required_fields in
       match missing_fields with
       | _ :: _ =>
         Raise (ParseError (u "json_parse")
                  (u "JSON缺少必填字段：" ++ repr_fields missing_fields
                     ++ u "，解析结果：" ++ fmt_value ev structured_data))
       | [] =>
         let* title := get structured_data (u "title") in
         let* content := get structured_data (u "content") in
         if is_none title && is_none content then
           Raise (ParseError (u "not_news")
                    (u "该页面不是有效的新闻内容（无标题和正文）"))
         else Return structured_data
       end)
    with
    | Return v => Return v
    | Raise e => call_llm_except self ev e
    end.
Proof.
  intros (content & rest & Hcreate & Hstrip & Hne).
  unfold _call_llm, call_llm_body. rewrite Hcreate. cbn [lift bind].
  rewrite Hstrip. destruct llm_output; [contradiction|reflexivity].
Qed.

(** Whatever does not decode ends in the handler of [Exception], because the
    handler of [JSONDecodeError] fails on its way to [ParseError]. *)
Lemma decode_failure_stage (raw_data clean_text llm_output msg : pystr) :
  _clean_html raw_data = Return clean_text ->
  service_output self ev clean_text llm_output ->
  json_loads ev llm_output = Raise (JSONDecodeError msg) ->
  parse self ev raw_data = Raise (ParseError (u "llm_request") name_error_reason).
Proof.
  intros Hclean Hout Hloads. unfold parse, parse_body.
  rewrite Hclean. cbn [bind].
  rewrite (call_llm_after_output Hout), Hloads. reflexivity.
Qed.

Lemma missing_none (items : list (pystr * json)) (fields : list pystr) :
  (forall f, In f fields -> dict_get items f <> None) ->
  missing (JDict items) fields = Return [].
Proof.
  induction fields as [|f rest IH]; intro H; cbn [missing].
  - reflexivity.
  - cbn [contains bind].
    destruct (dict_get items f) eqn:E.
    + rewrite IH; [reflexivity|]. intros g Hg. apply H. now right.
    + exfalso. apply (H f); [now left | assumption].
Qed.

End Extraction.

(** C1 (the code differs).  A response that does not decode is reported with
    stage [llm_request] and the text of a [NameError], not with stage
    [json_parse] and the raw output: here for the answer [not json]. *)
Theorem decode_failure_reported_as_llm_request :
  loads_model (u "not json") = Raise (JSONDecodeError (u "Expecting value"))
  /\ parse default_parser (answering (u "not json")) sample_markup
     = Raise (ParseError (u "llm_request") name_error_reason)
  /\ u "llm_request" <> u "json_parse".
Proof.
  split; [vm_compute; reflexivity|].
  split; [vm_compute; reflexivity|].
  vm_compute. discriminate.
Qed.

(** C2 (the code differs).  [_clean_llm_json] recovers the record from a
    fenced answer and from an answer with commentary around it, but
    [_call_llm] decodes the answer as it came: both answers end as a failure
    of stage [llm_request]. *)
Theorem wrapped_answer_is_not_unwrapped :
  loads_model (_clean_llm_json fenced_answer) = Return sample_record
  /\ loads_model (_clean_llm_json chatty_answer) = Return sample_record
  /\ parse default_parser (answering fenced_answer) sample_markup
     = Raise (ParseError (u "llm_request") name_error_reason)
  /\ parse default_parser (answering chatty_answer) sample_markup
     = Raise (ParseError (u "llm_request") name_error_reason).
Proof.
  repeat split; vm_compute; reflexivity.
Qed.

(** C8.  When the cleaned text reaches the service and the answer decodes to
    an object that has the four fields, with [title] and [content] null,
    [parse] raises [ParseError] of stage [not_news], whatever the other two
    fields hold. *)
Theorem null_title_and_content_is_not_news (self : LLMNewsParser) (ev : env)
    (raw_data clean_text llm_output : pystr) (items : list (pystr * json)) :
  _clean_html raw_data = Return clean_text ->
  service_output self ev clean_text llm_output ->
  json_loads ev llm_output = Return (JDict items) ->
  (forall f, In f required_fields -> dict_get items f <> None) ->
  dict_get items (u "title") = Some JNull ->
  dict_get items (u "content") = Some JNull ->
  parse self ev raw_data
  = Raise (ParseError (u "not_news")
             (u "该页面不是有效的新闻内容（无标题和正文）")).
Proof.
  intros Hclean Hout Hloads Hall Ht Hc. unfold parse, parse_body.
  rewrite Hclean. cbn [bind].
  rewrite (call_llm_after_output Hout), Hloads. cbn [bind].
  rewrite missing_none by exact Hall. cbn [bind get].
  rewrite Ht, Hc. reflexivity.
Qed.

Lemma null_title_and_content_is_not_news_witness :
  parse default_parser (answering not_news_answer) sample_markup
  = Raise (ParseError (u "not_news")
             (u "该页面不是有效的新闻内容（无标题和正文）")).
Proof.
  apply (@null_title_and_content_is_not_news default_parser
           (answering not_news_answer) sample_markup
           (u "Hello world" ++ [10%N] ++ u "Line2") not_news_answer
           not_news_items).
  - vm_compute. reflexivity.
  - exists not_news_answer, []. repeat split.
    vm_compute. discriminate.
  - vm_compute. reflexivity.
  - intros f Hf. vm_compute in Hf.
    destruct Hf as [<-|[<-|[<-|[<-|[]]]]]; vm_compute; discriminate.
  - vm_compute. reflexivity.
  - vm_compute. reflexivity.
Defined.

(** *** Classification of failures *)

Lemma clean_html_raises (raw_html : pystr) (e : exn) :
  _clean_html raw_html = Raise e ->
  exists reason, e = ParseError (u "html_clean") reason.
Proof.
  unfold _clean_html. destruct (clean_html_body raw_html) as [t|e0].
  - discriminate.
  - unfold clean_html_except. intro H. injection H as <-.
    eexists. reflexivity.
Qed.

Lemma contains_raises (v : json) (f : pystr) (e : exn) :
  contains v f = Raise e -> exists p, e = PyExn p.
Proof.
  destruct v; cbn [contains]; intro H; try discriminate;
    injection H as <-; eexists; reflexivity.
Qed.

Lemma get_raises (v : json) (key : pystr) (e : exn) :
  get v key = Raise e -> exists p, e = PyExn p.
Proof.
  destruct v; cbn [get]; intro H; try discriminate;
    injection H as <-; eexists; reflexivity.
Qed.

Lemma missing_raises (v : json) (fields : list pystr) (e : exn) :
  missing v fields = Raise e -> exists p, e = PyExn p.
Proof.
  induction fields as [|f rest IH]; cbn [missing].
  - discriminate.
  - destruct (contains v f) as [present|e1] eqn:Ec; cbn [bind].
    + destruct (missing v rest) as [others|e2]; cbn [bind].
      * discriminate.
      * intro H. injection H as <-. now apply IH.
    + intro H. injection H as <-. now apply contains_raises in Ec.
Qed.

Lemma json_decode_except_raises (llm_output : pystr) (p : py_exn) :
  exists q, json_decode_except llm_output p = Raise (PyExn q).
Proof.
  destruct p; cbn; eexists; reflexivity.
Qed.

(** *** The text that reaches the service *)

Lemma call_llm_except_agree (self : LLMNewsParser) (ev ev' : env) (e : exn) :
  (forall q, fmt_float ev q = fmt_float ev' q) ->
  call_llm_except self ev e = call_llm_except self ev' e.
Proof.
  intro Hf. destruct e as [step reason|p]; [|destruct p];
    cbn [call_llm_except]; rewrite ?Hf; reflexivity.
Qed.

Lemma call_llm_body_agree (self : LLMNewsParser) (ev ev' : env)
    (clean_text : pystr) :
  ParserVocab.agree_on (build_request self clean_text) ev ev' ->
  call_llm_body self ev clean_text = call_llm_body self ev' clean_text.
Proof.
  intros (Hc & Hl & _ & Hv). unfold call_llm_body. rewrite Hc.
  destruct (create ev' (build_request self clean_text)) as [choices|p];
    cbn [lift bind]; [|reflexivity].
  destruct choices as [|[content|] rest]; cbn [bind]; try reflexivity.
  destruct (strip content) as [|c0 out]; [reflexivity|].
  rewrite Hl.
  destruct (json_loads ev' (c0 :: out)) as [sd|p].
  2:{ destruct (json_decode_except_raises (c0 :: out) p)
        as (q & Hq).
      rewrite Hq. reflexivity. }
  cbn [bind].
  destruct (missing sd required_fields) as [[|m ms]|e]; cbn [bind];
    rewrite ?Hv; reflexivity.
Qed.

(** C7.  For a maximum length [n >= 0]: a cleaned text longer than [n] goes to
    the service as its first [n] characters, and a text of length at most [n]
    goes unchanged.  The text that goes to the service is the one in the
    request given to [create]: [_call_llm] calls [create] on the request
    built from the bounded text, whose user message is the fixed prefix
    followed by that text.  An exception of [create] on that request is the
    failure that [_call_llm] reports, and the answers of the service to any
    other request do not matter.  The cut raises nothing: [_call_llm] is the
    rest of the function run on the bounded text. *)
Theorem text_is_bounded_by_prefix (self : LLMNewsParser) (ev : env)
    (clean_text : pystr) :
  (0 <= max_text_length self)%Z ->
  let n := max_text_length self in
  let sent_text := bound_text self clean_text in
  ((len clean_text > n)%Z ->
     sent_text = firstn (Z.to_nat n) clean_text /\ len sent_text = n)
  /\ ((len clean_text <= n)%Z -> sent_text = clean_text)
  /\ rq_messages (build_request self sent_text)
     = [ (u "system", system_prompt);
         (u "user", user_prompt_prefix ++ sent_text) ]
  /\ _call_llm self ev clean_text
     = match call_llm_body self ev sent_text with
       | Return v => Return v
       | Raise e => call_llm_except self ev e
       end
  /\ (forall p,
        create ev (build_request self sent_text) = Raise p ->
        _call_llm self ev clean_text
        = Raise (ParseError (u "llm_request")
                   (ParserVocab.call_failure_reason self ev p)))
  /\ (forall ev',
        ParserVocab.agree_on (build_request self sent_text) ev ev' ->
        _call_llm self ev clean_text = _call_llm self ev' clean_text).
Proof.
  intros H n sent_text.
  assert (Hcut : sent_text = prefix_bound n clean_text)
    by (unfold sent_text, n; now apply prefix_bound_correct).
  split; [|split; [|split; [|split; [|split]]]].
  - intro Hgt. rewrite Hcut. unfold prefix_bound.
    destruct (Z.gtb_spec (len clean_text) n) as [_|Hle]; [|lia].
    split; [reflexivity|].
    unfold len in *. rewrite length_firstn. lia.
  - intro Hle. rewrite Hcut. unfold prefix_bound.
    destruct (Z.gtb_spec (len clean_text) n) as [Hgt|_]; [lia|reflexivity].
  - reflexivity.
  - reflexivity.
  - intros p Hcreate. unfold _call_llm, call_llm_body. fold sent_text.
    rewrite Hcreate. cbn [lift bind].
    destruct p;
      cbn [call_llm_except ParserVocab.call_failure_reason str_exn];
      reflexivity.
  - intros ev' Hag. unfold _call_llm. fold sent_text.
    rewrite (call_llm_body_agree Hag).
    destruct Hag as (_ & _ & Hf & _).
    destruct (call_llm_body self ev' sent_text) as [v|e]; [reflexivity|].
    now rewrite (@call_llm_except_agree self ev ev' e Hf).
Qed.

Lemma text_is_bounded_by_prefix_witness :
  bound_text short_parser (u "Hello world") = u "Hello"
  /\ bound_text short_parser (u "Hi") = u "Hi".
Proof.
  assert (H : (0 <= max_text_length short_parser)%Z) by (simpl; lia).
  split.
  - destruct (text_is_bounded_by_prefix short_parser (answering [])
                (u "Hello world") H) as (Hlong & _).
    destruct Hlong as (Hp & _); [vm_compute; reflexivity|].
    rewrite Hp. reflexivity.
  - destruct (text_is_bounded_by_prefix short_parser (answering [])
                (u "Hi") H) as (_ & Hshort & _).
    apply Hshort. vm_compute. discriminate.
Defined.

(** A [ParseError] that leaves the body of [_call_llm] names one of three
    stages. *)
Lemma call_llm_body_raises (self : LLMNewsParser) (ev : env)
    (clean_text step reason : pystr) :
  call_llm_body self ev clean_text = Raise (ParseError step reason) ->
  step = u "llm_request" \/ step = u "json_parse" \/ step = u "not_news".
Proof.
  unfold call_llm_body.
  destruct (create ev (build_request self clean_text)) as [choices|e0];
    cbn [lift bind]; [|discriminate].
  destruct choices as [|[content|] rest]; cbn [bind]; try discriminate.
  destruct (strip content) as [|c0 out] eqn:Eout.
  { intro H. injection H as <- _. now left. }
  destruct (json_loads ev (c0 :: out)) as [v|p].
  2:{ destruct (json_decode_except_raises (c0 :: out) p) as (q & Hq).
      rewrite Hq. cbn [bind]. discriminate. }
  cbn [bind].
  destruct (missing v required_fields) as [[|m ms]|e1] eqn:Em; cbn [bind].
  - destruct (get v (u "title")) as [title|e2] eqn:Et; cbn [bind].
    2:{ apply get_raises in Et as (q & Hq). subst e2. discriminate. }
    destruct (get v (u "content")) as [content'|e3] eqn:Ec; cbn [bind].
    2:{ apply get_raises in Ec as (q & Hq). subst e3. discriminate. }
    destruct (is_none title && is_none content'); [|discriminate].
    intro H. injection H as <- _. now right; right.
  - intro H. injection H as <- _. now right; left.
  - apply missing_raises in Em as (q & Hq). subst e1. discriminate.
Qed.

Lemma call_llm_raises (self : LLMNewsParser) (ev : env)
    (clean_text : pystr) (e : exn) :
  _call_llm self ev clean_text = Raise e ->
  exists step reason,
    e = ParseError step reason
    /\ (step = u "llm_request" \/ step = u "json_parse"
        \/ step = u "not_news").
Proof.
  unfold _call_llm.
  destruct (call_llm_body self ev (bound_text self clean_text))
    as [v|[step reason|p]] eqn:Eb.
  - discriminate.
  - cbn [call_llm_except]. intro H. injection H as <-.
    exists step, reason. split; [reflexivity|].
    now apply call_llm_body_raises in Eb.
  - destruct p; cbn [call_llm_except]; intro H; injection H as <-;
      eexists; eexists; (split; [reflexivity | now left]).
Qed.

Lemma unknown_prefix_length :
  List.length (u "解析未预期错误：") = 8%nat.
Proof. vm_compute. reflexivity. Qed.

(** C9.  A failure of [parse] is always a [ParseError] whose stage is one of
    [html_clean], [llm_request], [json_parse], [not_news] and [unknown]; and
    the last handler of [parse] turns any other exception into a
    [ParseError] of stage [unknown] whose reason has at most 208
    characters. *)
Theorem parse_failures_are_classified (self : LLMNewsParser) (ev : env)
    (raw_data : pystr) :
  (forall e, parse self ev raw_data = Raise e ->
     exists step reason, e = ParseError step reason /\ In step stages)
  /\ (forall p : py_exn,
        exists reason,
          parse_except (PyExn p) = Raise (ParseError (u "unknown") reason)
          /\ (List.length reason <= 208)%nat).
Proof.
  split.
  - intro e. unfold parse, parse_body.
    destruct (_clean_html raw_data) as [clean_text|e0] eqn:Ec; cbn [bind].
    + destruct (_call_llm self ev clean_text) as [v|e1] eqn:El; cbn [bind].
      * discriminate.
      * apply call_llm_raises in El as (step & reason & Heq & Hs).
        subst e1. cbn [parse_except]. intro H. injection H as <-.
        exists step, reason. split; [reflexivity|].
        unfold stages. cbn [map In].
        destruct Hs as [ Hs | [ Hs | Hs ] ]; subst step; tauto.
    + apply clean_html_raises in Ec as (reason & Heq).
      subst e0. cbn [parse_except]. intro H. injection H as <-.
      eexists; eexists. split; [reflexivity|].
      unfold stages. cbn [map In]. tauto.
  - intro p. eexists. split; [reflexivity|].
    rewrite length_app, unknown_prefix_length.
    pose proof (@PyStrFacts.slice_to_length (str_exn (PyExn p)) 200) as Hl.
    change (Z.to_nat 200) with 200%nat in Hl.
    specialize (Hl ltac:(lia)). lia.
Qed.

Lemma parse_failures_are_classified_witness :
  exists step reason,
    ParseError (u "llm_request") name_error_reason = ParseError step reason
    /\ In step stages.
Proof.
  apply (proj1 (parse_failures_are_classified default_parser
                  (answering (u "not json")) sample_markup)).
  vm_compute. reflexivity.
Defined.

(** *** Cleaning text that is already clean *)

Lemma clean_html_unfold (raw_html : pystr) :
  _clean_html raw_html
  = match normalize (extracted_text raw_html) with
    | [] =>
      clean_html_except
        (ParseError (u "html_clean") (u "HTML清理后无有效文本"))
    | t => Return t
    end.
Proof.
  unfold _clean_html, clean_html_body.
  fold (extracted_text raw_html). fold (normalize (extracted_text raw_html)).
  destruct (normalize (extracted_text raw_html)); reflexivity.
Qed.

(** What bs4 hands over for markup-free input: the input itself, unless it is
    white space only. *)
Lemma extracted_text_plain (x : pystr) :
  forallb Html.not_lt x = true -> x <> [] ->
  extracted_text x
  = if forallb Html.ascii_space x
    then if existsb (fun c => (c =? 10)%N) x then [10%N] else [32%N]
    else x.
Proof.
  intros H Hne. unfold extracted_text, Html.BeautifulSoup.
  rewrite (HtmlFacts.feed_plain H Hne).
  destruct x as [|c t]; [contradiction|].
  cbn [Html.build app Html.endData existsb negb andb].
  rewrite andb_true_r.
  destruct (forallb Html.ascii_space (c :: t));
    [destruct (existsb (fun c0 => (c0 =? 10)%N) (c :: t))|]; reflexivity.
Qed.

Lemma space_is_space_or_tab : space_or_tab 32%N = true.
Proof. reflexivity. Qed.

Lemma line_feed_is_line_feed : line_feed 10%N = true.
Proof. reflexivity. Qed.

Lemma line_feed_not_space_or_tab (c : char) :
  line_feed c = true -> space_or_tab c = false.
Proof. unfold line_feed. intro H. apply N.eqb_eq in H. now subst c. Qed.

(** The output of the three normalisation steps has no run of spaces or
    tabs, no tab, and no run of line feeds. *)
Lemma normalize_collapsed (t : pystr) :
  Re.collapsed space_or_tab 32%N false (normalize t) = true
  /\ Re.collapsed line_feed 10%N false (normalize t) = true.
Proof.
  unfold normalize, Re.sub_class_plus. split.
  - apply ReFacts.strip_collapsed with false.
    apply ReFacts.sub_runs_keeps_collapsed.
    + exact line_feed_not_space_or_tab.
    + exact line_feed_is_line_feed.
    + apply ReFacts.sub_runs_collapsed. exact space_is_space_or_tab.
    + discriminate.
  - apply ReFacts.strip_collapsed with false.
    apply ReFacts.sub_runs_collapsed. exact line_feed_is_line_feed.
Qed.

Lemma normalize_idem (t : pystr) : normalize (normalize t) = normalize t.
Proof.
  destruct (normalize_collapsed t) as [Hs Hl].
  change (normalize (normalize t))
    with (strip (Re.sub_runs line_feed [10%N] false
                   (Re.sub_runs space_or_tab [32%N] false (normalize t)))).
  rewrite (@ReFacts.sub_runs_fixed space_or_tab 32%N false (normalize t) Hs).
  rewrite (@ReFacts.sub_runs_fixed line_feed 10%N false (normalize t) Hl).
  unfold normalize. apply PyStrFacts.strip_idem.
Qed.

Lemma normalize_forallb (P : char -> bool) (t : pystr) :
  P 32%N = true -> P 10%N = true ->
  forallb P t = true -> forallb P (normalize t) = true.
Proof.
  intros Hs Hl H. unfold normalize, strip, Re.sub_class_plus.
  apply PyStrFacts.rstrip_forallb, PyStrFacts.lstrip_forallb.
  apply ReFacts.sub_runs_forallb; [exact Hl|].
  apply ReFacts.sub_runs_forallb; [exact Hs | exact H].
Qed.

Lemma plain_text_no_lt (x : pystr) :
  plain_text x = true -> forallb Html.not_lt x = true.
Proof.
  unfold plain_text. intro H. apply forallb_forall. intros c Hc.
  rewrite forallb_forall in H. specialize (H c Hc).
  apply andb_true_iff in H as [H _]. exact H.
Qed.

(** Clean text is a fixed point of the cleaning step. *)
Lemma clean_html_fixed (y : pystr) :
  forallb Html.not_lt y = true -> y <> [] -> normalize y = y ->
  _clean_html y = Return y.
Proof.
  intros Hlt Hne Hfix. rewrite clean_html_unfold.
  rewrite (extracted_text_plain Hlt Hne).
  assert (Hsc : starts_clean y = true).
  { rewrite <- Hfix. unfold normalize. apply PyStrFacts.strip_starts_clean. }
  rewrite (HtmlFacts.not_all_space Hne Hsc), Hfix.
  destruct y; [contradiction | reflexivity].
Qed.

(** C6.  On text without markup, cleaning the result of the cleaning step
    changes nothing: [clean(clean(x)) = clean(x)], a failure of the first
    cleaning being the result of both sides. *)
Theorem clean_html_idempotent (x : pystr) :
  plain_text x = true ->
  (let* y := _clean_html x in _clean_html y) = _clean_html x.
Proof.
  intro Hp. pose proof (plain_text_no_lt x Hp) as Hlt.
  destruct x as [|c t] eqn:Ex; [reflexivity|]. rewrite <- Ex in *.
  assert (Hne : x <> []) by (rewrite Ex; discriminate).
  clear Ex c t.
  rewrite clean_html_unfold, (extracted_text_plain Hlt Hne).
  destruct (forallb Html.ascii_space x).
  - destruct (existsb (fun c => (c =? 10)%N) x); reflexivity.
  - destruct (normalize x) as [|c t] eqn:En; [reflexivity|].
    cbn [bind]. rewrite <- En. apply clean_html_fixed.
    + apply normalize_forallb; [reflexivity | reflexivity | exact Hlt].
    + rewrite En. discriminate.
    + apply normalize_idem.
Qed.

Lemma clean_html_idempotent_witness :
  (let* y := _clean_html (u "Para one" ++ [10%N] ++ u "Para two") in
   _clean_html y)
  = Return (u "Para one" ++ [10%N] ++ u "Para two").
Proof.
  rewrite (clean_html_idempotent (u "Para one" ++ [10%N] ++ u "Para two"));
    vm_compute; reflexivity.
Defined.

End ParserSpec.

(* ================================================================== *)
(** * Further properties *)

(** String literals are compared as written before they are decoded. *)
Strategy opaque [PyStr.u PyStr.uq].

(** ** Every run of [fetch] *)

Module FetcherRuns.

Import Fetcher FetcherVocab.

Section Run.

Variable self : NewsFetcher.
Variable nw : net.
Variable source_url : pystr.

Let request_at (k : nat) : request := build_request nw k source_url.

Let after_get (w : world) : world :=
  {| sent := S (sent w); events := events w ++ [EvGet (request_at (sent w))] |}.

(** The three ways one attempt can go. *)
Lemma outcome_cases (o : http_outcome) :
  retryable o = true
  \/ exists status_code content,
       o = Response status_code content /\ is_success status_code = true.
Proof.
  destruct o as [st body| | |msg]; cbn [retryable]; try (now left).
  destruct (is_success st) eqn:E; [right | now left].
  exists st, body. now split.
Qed.

Lemma attempt_fails_at (w : world) :
  retryable (http_get nw (sent w) (request_at (sent w))) = true ->
  exists e,
    attempt_body self nw source_url w = (Raise e, after_get w)
    /\ attempt_except e
       = inr (failure_reason (http_get nw (sent w) (request_at (sent w)))).
Proof.
  intro Hf. unfold attempt_body, after_get, request_at in *.
  destruct (http_get nw (sent w) (build_request nw (sent w) source_url))
    as [st body| | |msg]; cbn [retryable] in Hf.
  - apply negb_true_iff in Hf. rewrite Hf.
    exists (AHTTPStatus st). split; [reflexivity | cbn [attempt_except failure_reason]; reflexivity].
  - exists ATimeout. split; [reflexivity | cbn [attempt_except failure_reason]; reflexivity].
  - exists AConnect. split; [reflexivity | cbn [attempt_except failure_reason]; reflexivity].
  - exists (AOther msg). split; [reflexivity | cbn [attempt_except failure_reason]; reflexivity].
Qed.

Lemma attempt_returns (w : world) (status_code : Z) (content : bytes) :
  http_get nw (sent w) (request_at (sent w)) = Response status_code content ->
  is_success status_code = true ->
  accepted self content = true ->
  attempt_body self nw source_url w = (Return content, after_get w).
Proof.
  intros Hget Hst Hacc. unfold attempt_body, after_get, request_at in *.
  rewrite Hget, Hst. unfold accepted in Hacc.
  destruct (content_validator self) as [validate|]; [|reflexivity].
  rewrite Hacc. reflexivity.
Qed.

Lemma attempt_rejects (w : world) (status_code : Z) (content : bytes) :
  http_get nw (sent w) (request_at (sent w)) = Response status_code content ->
  is_success status_code = true ->
  accepted self content = false ->
  attempt_body self nw source_url w
  = (Raise (AContentValidation
              (ContentValidationError source_url (rejection_reason content))),
     after_get w).
Proof.
  intros Hget Hst Hacc. unfold attempt_body, after_get, request_at in *.
  rewrite Hget, Hst. unfold accepted in Hacc.
  destruct (content_validator self) as [validate|]; [|discriminate].
  rewrite Hacc. cbn [negb]. unfold rejection_reason. reflexivity.
Qed.


End Run.








Section AnyTransport.

Variable self : NewsFetcher.
Variable nw : net.
Variable source_url : pystr.

Let request_at (k : nat) : request := build_request nw k source_url.

Lemma only_gets_and_sleeps (evs : list event) :
  gets evs = [] -> sleeps evs = [] -> evs = [].
Proof.
  destruct evs as [|[r|d] evs']; [reflexivity | |]; cbn; discriminate.
Qed.

(** A failed attempt followed by the rest of the run. *)
Lemma run_step (n : nat) (r0 : pystr) (w : world) (sl : list event)
    (R : result fetch_exn bytes * world) :
  retryable (http_get nw (sent w) (request_at (sent w))) = true ->
  gets sl = [] ->
  List.length (sleeps sl) = (if Nat.eqb n 0 then 0 else 1)%nat ->
  (n = 0%nat -> sl = []) ->
  run_facts self nw source_url n
    (failure_reason (http_get nw (sent w) (request_at (sent w))))
    {| sent := S (sent w);
       events := events w ++ EvGet (request_at (sent w)) :: sl |} R ->
  run_facts self nw source_url (S n) r0 w R.
Proof.
  intros Hf Hgsl Hssl Hsl0
    (g & new & Hw & Hle & Hge & Hg & Hs & Hout & Hlast).
  cbn [sent events] in Hw, Hg, Hout.
  exists (S g), (EvGet (request_at (sent w)) :: sl ++ new).
  split; [|split; [|split; [|split; [|split; [|split]]]]].
  7:{ intros _. destruct g as [|g'].
      - assert (H : n = 0%nat) by lia. rewrite (Hsl0 H).
        assert (Hnil : new = []).
        { apply only_gets_and_sleeps; [exact Hg|].
          destruct (sleeps new); [reflexivity | discriminate]. }
        rewrite Hnil. exists [], (request_at (sent w)). reflexivity.
      - destruct Hlast as (front & r & Hn'); [lia|].
        exists (EvGet (request_at (sent w)) :: sl ++ front), r.
        rewrite Hn'. cbn [app]. now rewrite <- app_assoc. }
  - rewrite Hw. f_equal; [lia|].
    rewrite <- app_assoc. reflexivity.
  - lia.
  - lia.
  - change (EvGet (request_at (sent w)) :: sl ++ new)
      with ([EvGet (request_at (sent w))] ++ sl ++ new).
    rewrite !FetcherSpec.gets_app, Hgsl, Hg. reflexivity.
  - change (EvGet (request_at (sent w)) :: sl ++ new)
      with ([EvGet (request_at (sent w))] ++ sl ++ new).
    rewrite !FetcherSpec.sleeps_app, !length_app, Hssl, Hs.
    cbn [sleeps flat_map List.length app].
    destruct n; cbn [Nat.eqb]; lia.
  - destruct (fst R) as [content|[url reason|url reason|msg]].
    + destruct Hout as (st & Hg1 & Hget & Hst & Hacc).
      exists st. split; [lia|].
      replace (sent w + S g - 1)%nat with (S (sent w) + g - 1)%nat by lia.
      now repeat split.
    + destruct Hout as (Hu & Hgn & Hr & Hall).
      split; [exact Hu|]. split; [lia|]. split.
      * rewrite Hr. reflexivity.
      * intros j Hj. destruct j as [|j].
        -- rewrite Nat.add_0_r. exact Hf.
        -- replace (sent w + S j)%nat with (S (sent w) + j)%nat by lia.
           apply Hall. lia.
    + destruct Hout as (st & content & Hg1 & Hget & Hst & Hacc & Hu & Hr).
      exists st, content. split; [lia|].
      replace (sent w + S g - 1)%nat with (S (sent w) + g - 1)%nat by lia.
      now repeat split.
    + exact Hout.
Qed.

(** A run that ends with its first request. *)
Lemma run_ends (n : nat) (r0 : pystr) (w : world)
    (out : result fetch_exn bytes) :
  match out with
  | Return content =>
    exists status_code,
      http_get nw (sent w) (request_at (sent w))
      = Response status_code content
      /\ is_success status_code = true
      /\ accepted self content = true
  | Raise (ContentValidationError_ url reason) =>
    exists status_code content,
      http_get nw (sent w) (request_at (sent w))
      = Response status_code content
      /\ is_success status_code = true
      /\ accepted self content = false
      /\ url = source_url
      /\ reason = u "内容校验失败: " ++ rejection_reason content
  | Raise (FetchError _ _) => False
  | Raise (OverflowError _) => (1026 <= max_retries self)%Z
  end ->
  run_facts self nw source_url (S n) r0 w
    (out, {| sent := S (sent w);
             events := events w ++ [EvGet (request_at (sent w))] |}).
Proof.
  intro Hout. exists 1%nat, [EvGet (request_at (sent w))].
  cbn [fst snd].
  split; [f_equal; lia|]. split; [lia|]. split; [lia|].
  split; [reflexivity|]. split; [reflexivity|]. split.
  - replace (sent w + 1 - 1)%nat with (sent w) by lia.
    destruct out as [content|[url reason|url reason|msg]].
    + destruct Hout as (st & H1 & H2 & H3). exists st.
      repeat split; try assumption. lia.
    + destruct Hout.
    + destruct Hout as (st & content & H1 & H2 & H3 & H4 & H5).
      exists st, content. repeat split; try assumption. lia.
    + exact Hout.
  - intros _. exists [], (request_at (sent w)). reflexivity.
Qed.

Lemma fetch_loop_run (n a : nat) (last_error_reason : pystr) (w : world) :
  (n = 0%nat \/ Z.of_nat (a + n) = max_retries self) ->
  run_facts self nw source_url n last_error_reason w
    (fetch_loop self nw source_url (map Z.of_nat (seq a n))
       last_error_reason w).
Proof.
  revert a last_error_reason w.
  induction n as [|n IH]; intros a r0 w Hn.
  - exists 0%nat, []. cbn [seq map fetch_loop fst snd].
    repeat split; try lia.
    rewrite Nat.add_0_r, app_nil_r. now destruct w.
  - destruct Hn as [Hn|Hn]; [discriminate|].
    cbn [seq map fetch_loop].
    destruct (outcome_cases (http_get nw (sent w) (request_at (sent w))))
      as [Hf|(st & content & Hget & Hst)].
    + destruct (@attempt_fails_at self nw source_url w Hf)
        as (e & Hbody & Hexc).
      rewrite Hbody, Hexc.
      assert (Hrest : n = 0%nat \/ Z.of_nat (S a + n) = max_retries self)
        by (destruct n; [now left | right; lia]).
      destruct (Z.of_nat a <? max_retries self - 1)%Z eqn:Ec.
      * apply Z.ltb_lt in Ec.
        destruct (Z_lt_le_dec (Z.of_nat a) 1024) as [Hsmall|Hlarge].
        -- rewrite (FetcherSpec.backoff_time_small self Hsmall).
           apply run_step with (sl := [EvSleep (delay self (Z.of_nat a))]);
             [exact Hf | reflexivity | destruct n; [lia | reflexivity]
             | intro; lia |].
           unfold sleep. cbn [sent events]. rewrite <- app_assoc.
           apply IH. exact Hrest.
        -- rewrite (FetcherSpec.backoff_time_large self Hlarge).
           apply run_ends. lia.
      * apply Z.ltb_ge in Ec.
        apply run_step with (sl := []);
          [exact Hf | reflexivity | destruct n; [reflexivity | lia]
          | reflexivity |].
        apply IH. exact Hrest.
    + destruct (accepted self content) eqn:Hacc.
      * rewrite (@attempt_returns self nw source_url w st content Hget Hst Hacc).
        apply run_ends. exists st. now repeat split.
      * rewrite (@attempt_rejects self nw source_url w st content Hget Hst Hacc).
        cbn [attempt_except]. unfold ContentValidationError.
        apply run_ends. exists st, content. now repeat split.
Qed.

End AnyTransport.

Lemma fetch_as_loop_run (self : NewsFetcher) (nw : net) (source_url : pystr)
    (w : world) :
  fetch self nw source_url w
  = fetch_loop self nw source_url
      (map Z.of_nat (seq 0 (Z.to_nat (max_retries self)))) [] w
  /\ (Z.to_nat (max_retries self) = 0%nat
      \/ Z.of_nat (0 + Z.to_nat (max_retries self)) = max_retries self).
Proof.
  split; [reflexivity|].
  destruct (Z.to_nat (max_retries self)) eqn:E; [now left | right; lia].
Qed.

(** X3.  Whatever the transport does, [fetch] sends at most [max_retries]
    requests, numbered consecutively; the number of its sleeps is one less
    than the number of its requests (none when no request is sent); and the
    last thing a run does to the outside is a request, never a sleep. *)
Theorem fetch_run_shape (self : NewsFetcher) (nw : net) (source_url : pystr)
    (w : world) :
  exists g new,
    snd (fetch self nw source_url w)
    = {| sent := sent w + g; events := events w ++ new |}
    /\ (g <= Z.to_nat (max_retries self))%nat
    /\ gets new = requests_from nw source_url (sent w) g
    /\ List.length (sleeps new) = (g - 1)%nat
    /\ (new = [] \/ exists front r, new = front ++ [EvGet r]).
Proof.
  destruct (fetch_as_loop_run self nw source_url w) as (Hf & Hn).
  destruct (@fetch_loop_run self nw source_url _ 0%nat [] w Hn)
    as (g & new & Hw & Hle & _ & Hg & Hs & _ & Hlast).
  exists g, new. rewrite Hf.
  split; [exact Hw|]. split; [exact Hle|]. split; [exact Hg|].
  split; [exact Hs|].
  destruct g as [|g'].
  - left. cbn in Hg, Hs.
    destruct new as [|[r|d] new']; [reflexivity | |]; cbn in Hg, Hs;
      discriminate.
  - right. apply Hlast. lia.
Qed.

(** X4.  A payload returned by [fetch] is the body of a response of this run
    that had a 2xx status and that the validator, if there is one,
    accepted. *)
Theorem fetch_returns_an_accepted_response (self : NewsFetcher) (nw : net)
    (source_url : pystr) (w : world) (content : bytes) :
  fst (fetch self nw source_url w) = Return content ->
  exists k status_code,
    (sent w <= k < sent (snd (fetch self nw source_url w)))%nat
    /\ http_get nw k (build_request nw k source_url)
       = Response status_code content
    /\ is_success status_code = true
    /\ accepted self content = true.
Proof.
  destruct (fetch_as_loop_run self nw source_url w) as (Hf & Hn).
  destruct (@fetch_loop_run self nw source_url _ 0%nat [] w Hn)
    as (g & new & Hw & _ & _ & _ & _ & Hout & _).
  rewrite Hf. intro Hret. rewrite Hret in Hout.
  destruct Hout as (st & Hg1 & Hget & Hst & Hacc).
  exists (sent w + g - 1)%nat, st. rewrite Hw. cbn [sent].
  repeat split; try assumption; lia.
Qed.


(** X6.  [fetch] raises [ContentValidationError] only when the last response
    of the run had a 2xx status and the configured validator returned false
    on its body; the reason names the length of that body. *)
Theorem validation_error_means_rejection (self : NewsFetcher) (nw : net)
    (source_url : pystr) (w : world) (url reason : pystr) :
  fst (fetch self nw source_url w)
  = Raise (ContentValidationError_ url reason) ->
  exists status_code content validate,
    let k := (sent (snd (fetch self nw source_url w)) - 1)%nat in
    http_get nw k (build_request nw k source_url)
    = Response status_code content
    /\ is_success status_code = true
    /\ content_validator self = Some validate
    /\ validate content = false
    /\ url = source_url
    /\ reason = u "内容校验失败: " ++ rejection_reason content.
Proof.
  destruct (fetch_as_loop_run self nw source_url w) as (Hf & Hn).
  destruct (@fetch_loop_run self nw source_url _ 0%nat [] w Hn)
    as (g & new & Hw & _ & _ & _ & _ & Hout & _).
  rewrite Hf. intro Hret. rewrite Hret in Hout.
  destruct Hout as (st & content & Hg1 & Hget & Hst & Hacc & Hu & Hr).
  unfold accepted in Hacc.
  destruct (content_validator self) as [validate|] eqn:Hv; [|discriminate].
  exists st, content, validate. rewrite Hw. cbn [sent].
  replace (sent w + g - 1)%nat with (sent w + g - 1)%nat by reflexivity.
  now repeat split.
Qed.

Lemma user_agent_in_pool (nw : net) (k : nat) :
  In (nth (Nat.modulo (draw nw k) (List.length USER_AGENTS)) USER_AGENTS [])
     USER_AGENTS.
Proof.
  apply nth_In. apply Nat.mod_upper_bound. cbn. discriminate.
Qed.

Lemma in_gets (r : request) (evs : list event) :
  In (EvGet r) evs -> In r (gets evs).
Proof.
  intro H. unfold gets. apply in_flat_map.
  exists (EvGet r). split; [exact H | now left].
Qed.

(** X7.  Every request that a run of [fetch] adds to the trace goes to the
    URL given to [fetch] and carries three headers: a [User-Agent] taken
    from the pool of five, and the fixed [Accept] and [Accept-Language]. *)
Theorem requests_are_well_formed (self : NewsFetcher) (nw : net)
    (source_url : pystr) (w : world) (r : request) :
  In (EvGet r) (events (snd (fetch self nw source_url w))) ->
  In (EvGet r) (events w)
  \/ (req_url r = source_url
      /\ exists agent,
           In agent USER_AGENTS
           /\ req_headers r
              = [ (u "User-Agent", agent);
                  (u "Accept",
                   u "text/html,application/xhtml+xml,application/xml;q=0.9,*/*;q=0.8");
                  (u "Accept-Language", u "zh-CN,zh;q=0.9,en;q=0.8") ]).
Proof.
  destruct (fetch_as_loop_run self nw source_url w) as (Hf & Hn).
  destruct (@fetch_loop_run self nw source_url _ 0%nat [] w Hn)
    as (g & new & Hw & _ & _ & Hg & _).
  rewrite Hf, Hw. cbn [events]. intro Hin.
  apply in_app_or in Hin as [Hin|Hin]; [now left | right].
  apply in_gets in Hin. rewrite Hg in Hin. unfold requests_from in Hin.
  apply in_map_iff in Hin as (k & Hk & _). subst r.
  split; [reflexivity|].
  eexists. split; [apply (user_agent_in_pool nw k) | reflexivity].
Qed.







Lemma fetch_returns_an_accepted_response_witness :
  exists k status_code,
    (0 <= k < 3)%nat
    /\ http_get (flaky 2 hello_bytes) k
         (build_request (flaky 2 hello_bytes) k some_url)
       = Response status_code hello_bytes
    /\ is_success status_code = true
    /\ accepted no_validator hello_bytes = true.
Proof.
  apply (@fetch_returns_an_accepted_response no_validator
           (flaky 2 hello_bytes) some_url world0 hello_bytes).
  reflexivity.
Defined.


Lemma validation_error_means_rejection_witness :
  exists status_code content validate,
    http_get always_200_empty 0 (build_request always_200_empty 0 some_url)
    = Response status_code content
    /\ is_success status_code = true
    /\ content_validator three_tries = Some validate
    /\ validate content = false
    /\ some_url = some_url
    /\ u "内容校验失败: " ++ rejection_reason []
       = u "内容校验失败: " ++ rejection_reason content.
Proof.
  apply (@validation_error_means_rejection three_tries always_200_empty
           some_url world0 some_url
           (u "内容校验失败: " ++ rejection_reason [])).
  reflexivity.
Defined.

Lemma requests_are_well_formed_witness :
  req_url (build_request always_404 2 some_url) = some_url.
Proof.
  destruct (@requests_are_well_formed three_tries always_404 some_url world0
              (build_request always_404 2 some_url)) as [H|[H _]].
  - vm_compute. right; right; right; right. now left.
  - destruct H.
  - exact H.
Defined.



End FetcherRuns.

(** ** The cleaning step on every input *)

Module CleaningFacts.

Import Parser.

Lemma lstrip_blank (s : pystr) : forallb isspace s = true -> lstrip s = [].
Proof.
  induction s as [|c t IH]; cbn [forallb lstrip]; [reflexivity|].
  intro H. apply andb_true_iff in H as [Hc Ht]. rewrite Hc. now apply IH.
Qed.

Lemma normalize_blank (t : pystr) :
  forallb isspace t = true -> normalize t = [].
Proof.
  intro H. unfold normalize, strip, Re.sub_class_plus.
  rewrite lstrip_blank; [reflexivity|].
  apply ReFacts.sub_runs_forallb; [reflexivity|].
  apply ReFacts.sub_runs_forallb; [reflexivity | exact H].
Qed.

Lemma space_is_not_lt (c : char) : isspace c = true -> Html.not_lt c = true.
Proof.
  intro H. unfold Html.not_lt. apply negb_true_iff. apply N.eqb_neq.
  intro E. subst c. discriminate.
Qed.

Lemma empty_text_reason :
  u "HTML解析失败: "
    ++ slice_to (str_exn (ParseError (u "html_clean")
                            (u "HTML清理后无有效文本"))) 200
  = u "HTML解析失败: 解析失败（html_clean）: HTML清理后无有效文本".
Proof. vm_compute. reflexivity. Qed.

(** X9.  Text returned by [_clean_html] is never empty, has no white space
    at either end, contains no tab, no two adjacent spaces and no two
    adjacent line feeds, whatever the markup was. *)
Theorem cleaned_text_is_normalised (raw_html t : pystr) :
  _clean_html raw_html = Return t ->
  t <> []
  /\ strip t = t
  /\ Re.collapsed space_or_tab 32%N false t = true
  /\ Re.collapsed line_feed 10%N false t = true.
Proof.
  rewrite ParserSpec.clean_html_unfold.
  destruct (normalize (extracted_text raw_html)) as [|c r] eqn:En.
  - discriminate.
  - intro H. injection H as <-. rewrite <- En.
    split; [rewrite En; discriminate|].
    split; [apply PyStrFacts.strip_idem|].
    apply ParserSpec.normalize_collapsed.
Qed.

(** X10.  [_clean_html] fails in two ways only, both with stage
    [html_clean], whatever the library does.  When the library (lines 63-73)
    raises, the reason is [HTML解析失败: ] followed by the first 200
    characters of that exception.  When the text left after the
    normalisation is empty, the [ParseError] raised for it inside the [try]
    is caught by the [except Exception] of the same function, so the reason
    that reaches the caller is the message of that first error behind a
    second prefix.  Otherwise the normalised text is returned.  With the
    library model of this file, which raises nothing, [_clean_html] is the
    instance in which only the second failure remains. *)
Theorem clean_html_fails_in_two_ways
    (soup_text : pystr -> result py_exn pystr) (raw_html : pystr) :
  clean_html_with soup_text raw_html
  = match soup_text raw_html with
    | Raise p =>
      Raise (ParseError (u "html_clean")
               (u "HTML解析失败: " ++ slice_to (str_py p) 200))
    | Return t =>
      match normalize t with
      | [] =>
        Raise (ParseError (u "html_clean")
                 (u "HTML解析失败: 解析失败（html_clean）: HTML清理后无有效文本"))
      | clean_text => Return clean_text
      end
    end
  /\ _clean_html raw_html = clean_html_with soup_text_model raw_html.
Proof.
  split.
  - unfold clean_html_with, clean_html_body_with.
    destruct (soup_text raw_html) as [t|p]; cbn [lift bind].
    + fold (normalize t).
      destruct (normalize t) as [|c r]; [|reflexivity].
      unfold clean_html_except. now rewrite empty_text_reason.
    + reflexivity.
  - reflexivity.
Qed.

(** X11.  Input that is empty or made of white space only is rejected with
    stage [html_clean]. *)
Theorem blank_input_is_rejected (raw_html : pystr) :
  forallb isspace raw_html = true ->
  _clean_html raw_html
  = Raise (ParseError (u "html_clean")
             (u "HTML解析失败: 解析失败（html_clean）: HTML清理后无有效文本")).
Proof.
  intro Hsp.
  assert (Hblank : normalize (extracted_text raw_html) = []).
  { destruct raw_html as [|c t] eqn:Ex; [reflexivity|]. rewrite <- Ex in *.
    assert (Hne : raw_html <> []) by (rewrite Ex; discriminate).
    assert (Hlt : forallb Html.not_lt raw_html = true).
    { apply forallb_forall. intros x Hx. apply space_is_not_lt.
      rewrite forallb_forall in Hsp. now apply Hsp. }
    rewrite (ParserSpec.extracted_text_plain Hlt Hne).
    destruct (forallb Html.ascii_space raw_html).
    - destruct (existsb (fun c0 => (c0 =? 10)%N) raw_html); reflexivity.
    - now apply normalize_blank. }
  rewrite ParserSpec.clean_html_unfold, Hblank.
  unfold clean_html_except. now rewrite empty_text_reason.
Qed.

Lemma cleaned_text_is_normalised_witness :
  strip (u "Hello world" ++ [10%N] ++ u "Line2")
  = u "Hello world" ++ [10%N] ++ u "Line2".
Proof.
  apply (@cleaned_text_is_normalised sample_markup
           (u "Hello world" ++ [10%N] ++ u "Line2")).
  vm_compute. reflexivity.
Defined.

Lemma clean_html_fails_in_two_ways_witness :
  clean_html_with (soup_text_rejecting (u "rejected markup")) (u "<![x]>hello")
  = Raise (ParseError (u "html_clean") (u "HTML解析失败: rejected markup"))
  /\ clean_html_with soup_text_model (u "<p> </p>")
     = Raise (ParseError (u "html_clean")
                (u "HTML解析失败: 解析失败（html_clean）: HTML清理后无有效文本")).
Proof.
  split.
  - destruct (clean_html_fails_in_two_ways
                (soup_text_rejecting (u "rejected markup")) (u "<![x]>hello"))
      as (Hrun & _).
    rewrite Hrun. vm_compute. reflexivity.
  - destruct (clean_html_fails_in_two_ways soup_text_model (u "<p> </p>"))
      as (Hrun & _).
    rewrite Hrun. vm_compute. reflexivity.
Defined.

Lemma blank_input_is_rejected_witness :
  _clean_html [32%N; 10%N; 9%N; 160%N]
  = Raise (ParseError (u "html_clean")
             (u "HTML解析失败: 解析失败（html_clean）: HTML清理后无有效文本")).
Proof.
  apply (@blank_input_is_rejected [32%N; 10%N; 9%N; 160%N]).
  reflexivity.
Defined.

End CleaningFacts.

(** ** The extraction step on every answer *)

Module ExtractionFacts.

Import Json Parser ParserVocab.

Section Extraction.

Variable self : LLMNewsParser.
Variable ev : env.

(** On a decoded object the check of the required fields raises nothing and
    lists the absent fields in the order of [required_fields]. *)
Lemma missing_dict (items : list (pystr * json)) (fields : list pystr) :
  missing (JDict items) fields
  = Return (filter (fun f => match dict_get items f with
                             | Some _ => false
                             | None => true
                             end) fields).
Proof.
  induction fields as [|f rest IH]; cbn [missing filter]; [reflexivity|].
  cbn [contains bind]. rewrite IH. cbn [bind].
  destruct (dict_get items f); reflexivity.
Qed.

Lemma bind_return (E A : Type) (r : result E A) :
  (let* x := r in Return x) = r.
Proof. destruct r; reflexivity. Qed.

Lemma parse_after_output (raw_data clean_text llm_output : pystr) :
  _clean_html raw_data = Return clean_text ->
  service_output self ev clean_text llm_output ->
  parse self ev raw_data
  = match
      match
        (let* structured_data :=
           match json_loads ev llm_output with
           | Return v => Return v
           | Raise e => json_decode_except llm_output e
           end in
         let* missing_fields := missing structured_data required_fields in
         match missing_fields with
         | _ :: _ =>
           Raise (ParseError (u "json_parse")
                    (u "JSON缺少必填字段：" ++ repr_fields missing_fields
                       ++ u "，解析结果：" ++ fmt_value ev structured_data))
         | [] =>
           let* title := get structured_data (u "title") in
           let* content := get structured_data (u "content") in
           if is_none title && is_none content then
             Raise (ParseError (u "not_news")
                      (u "该页面不是有效的新闻内容（无标题和正文）"))
           else Return structured_data
         end)
      with
      | Return v => Return v
      | Raise e => call_llm_except self ev e
      end
    with
    | Return v => Return v
    | Raise e => parse_except e
    end.
Proof.
  intros Hclean Hout. unfold parse, parse_body. rewrite Hclean. cbn [bind].
  rewrite bind_return.
  rewrite (ParserSpec.call_llm_after_output Hout). reflexivity.
Qed.

End Extraction.

(** X12.  When the answer decodes to an object that lacks a required field,
    [parse] raises [ParseError] of stage [json_parse]; the reason lists the
    absent fields in the order title, content, publish_time, author, and
    then the decoded object. *)
Theorem missing_field_is_json_parse (self : LLMNewsParser) (ev : env)
    (raw_data clean_text llm_output f : pystr) (items : list (pystr * json)) :
  _clean_html raw_data = Return clean_text ->
  service_output self ev clean_text llm_output ->
  json_loads ev llm_output = Return (JDict items) ->
  In f required_fields ->
  dict_get items f = None ->
  In f (absent_fields items)
  /\ parse self ev raw_data
     = Raise (ParseError (u "json_parse")
                (u "JSON缺少必填字段：" ++ repr_fields (absent_fields items)
                   ++ u "，解析结果：" ++ fmt_value ev (JDict items))).
Proof.
  intros Hclean Hout Hloads Hin Hnone.
  assert (Habs : In f (absent_fields items)).
  { unfold absent_fields. apply filter_In. split; [exact Hin|].
    now rewrite Hnone. }
  split; [exact Habs|].
  rewrite (@parse_after_output self ev raw_data clean_text llm_output Hclean Hout),
    Hloads. cbn [bind].
  rewrite missing_dict. fold (absent_fields items). cbn [bind].
  destruct (absent_fields items) as [|m ms]; [destruct Habs | reflexivity].
Qed.

(** X13.  When the answer decodes to an object with the four fields in which
    [title] or [content] is not null, [parse] returns that object as it was
    decoded: nothing is added, removed or replaced. *)
Theorem news_record_is_returned (self : LLMNewsParser) (ev : env)
    (raw_data clean_text llm_output : pystr) (items : list (pystr * json))
    (title content : json) :
  _clean_html raw_data = Return clean_text ->
  service_output self ev clean_text llm_output ->
  json_loads ev llm_output = Return (JDict items) ->
  (forall f, In f required_fields -> dict_get items f <> None) ->
  dict_get items (u "title") = Some title ->
  dict_get items (u "content") = Some content ->
  title <> JNull \/ content <> JNull ->
  parse self ev raw_data = Return (JDict items).
Proof.
  intros Hclean Hout Hloads Hall Ht Hc Hnn.
  rewrite (@parse_after_output self ev raw_data clean_text llm_output Hclean Hout),
    Hloads. cbn [bind].
  rewrite ParserSpec.missing_none by exact Hall. cbn [bind get].
  rewrite Ht, Hc.
  destruct title, content; try reflexivity.
  destruct Hnn as [H|H]; now elim H.
Qed.

(** X14.  An answer whose content is empty or white space only makes
    [parse] raise [ParseError] of stage [llm_request]; [json.loads] is not
    reached. *)
Theorem blank_answer_is_llm_request (self : LLMNewsParser) (ev : env)
    (raw_data clean_text content : pystr) (rest : list (option pystr)) :
  _clean_html raw_data = Return clean_text ->
  create ev (build_request self (bound_text self clean_text))
  = Return (Some content :: rest) ->
  strip content = [] ->
  parse self ev raw_data
  = Raise (ParseError (u "llm_request") (u "LLM返回空内容")).
Proof.
  intros Hclean Hcreate Hblank. unfold parse, parse_body.
  rewrite Hclean. cbn [bind]. rewrite bind_return.
  unfold _call_llm, call_llm_body.
  rewrite Hcreate. cbn [lift bind]. rewrite Hblank. reflexivity.
Qed.

(** X15.  An exception of the service call makes [parse] raise [ParseError]
    of stage [llm_request]: with the configured timeout for a timeout, a
    fixed text for a connection failure, the message of the service for an
    API error, and the first 200 characters of the exception otherwise. *)
Theorem service_failure_is_llm_request (self : LLMNewsParser) (ev : env)
    (raw_data clean_text : pystr) (p : py_exn) :
  _clean_html raw_data = Return clean_text ->
  create ev (build_request self (bound_text self clean_text)) = Raise p ->
  parse self ev raw_data
  = Raise (ParseError (u "llm_request") (call_failure_reason self ev p)).
Proof.
  intros Hclean Hcreate. unfold parse, parse_body.
  rewrite Hclean. cbn [bind]. rewrite bind_return.
  unfold _call_llm, call_llm_body.
  rewrite Hcreate. cbn [lift bind].
  destruct p; reflexivity.
Qed.

Lemma index_error_reason :
  u "LLM交互未知错误：" ++ slice_to (u "list index out of range") 200
  = u "LLM交互未知错误：list index out of range".
Proof. vm_compute. reflexivity. Qed.

Lemma none_content_reason :
  u "LLM交互未知错误："
    ++ slice_to (u "'NoneType' object has no attribute 'strip'") 200
  = u "LLM交互未知错误：'NoneType' object has no attribute 'strip'".
Proof. vm_compute. reflexivity. Qed.

(** X16.  A response without choices, or whose first choice has no content,
    makes [parse] raise [ParseError] of stage [llm_request] with the text of
    the [IndexError] or [AttributeError] that reading it causes. *)
Theorem malformed_response_is_llm_request (self : LLMNewsParser) (ev : env)
    (raw_data clean_text : pystr) (choices : list (option pystr)) :
  _clean_html raw_data = Return clean_text ->
  create ev (build_request self (bound_text self clean_text))
  = Return choices ->
  (choices = [] ->
   parse self ev raw_data
   = Raise (ParseError (u "llm_request")
              (u "LLM交互未知错误：list index out of range")))
  /\ (forall rest, choices = None :: rest ->
      parse self ev raw_data
      = Raise (ParseError (u "llm_request")
                 (u "LLM交互未知错误：'NoneType' object has no attribute 'strip'"))).
Proof.
  intros Hclean Hcreate. split.
  - intro Hc. subst choices. unfold parse, parse_body.
    rewrite Hclean. cbn [bind]. rewrite bind_return.
    unfold _call_llm, call_llm_body.
    rewrite Hcreate. cbn [lift bind call_llm_except str_exn str_py].
    rewrite index_error_reason. reflexivity.
  - intros rest Hc. subst choices. unfold parse, parse_body.
    rewrite Hclean. cbn [bind]. rewrite bind_return.
    unfold _call_llm, call_llm_body.
    rewrite Hcreate. cbn [lift bind call_llm_except str_exn str_py].
    rewrite none_content_reason. reflexivity.
Qed.

Lemma bind_returns (E A B : Type) (r : result E A) (k : A -> result E B)
    (b : B) :
  (let* x := r in k x) = Return b -> exists a, r = Return a /\ k a = Return b.
Proof.
  destruct r as [a|e]; cbn [bind]; [|discriminate].
  intro H. now exists a.
Qed.

Lemma get_returns (v key_value : json) (key : pystr) :
  get v key = Return key_value ->
  exists items,
    v = JDict items
    /\ key_value = match dict_get items key with Some x => x | None => JNull end.
Proof.
  destruct v; cbn [get]; try discriminate.
  intro H. injection H as <-. eexists. split; reflexivity.
Qed.

Lemma call_llm_body_returns (self : LLMNewsParser) (ev : env)
    (clean_text : pystr) (v : json) :
  call_llm_body self ev clean_text = Return v ->
  exists content rest items,
    create ev (build_request self clean_text) = Return (Some content :: rest)
    /\ strip content <> []
    /\ json_loads ev (strip content) = Return v
    /\ v = JDict items
    /\ absent_fields items = []
    /\ ~ (dict_get items (u "title") = Some JNull
          /\ dict_get items (u "content") = Some JNull).
Proof.
  unfold call_llm_body.
  destruct (create ev (build_request self clean_text)) as [choices|p];
    cbn [lift bind]; [|discriminate].
  destruct choices as [|[content|] rest]; cbn [bind]; try discriminate.
  destruct (strip content) as [|c0 out] eqn:Eout; [discriminate|].
  destruct (json_loads ev (c0 :: out)) as [sd|p] eqn:El.
  2:{ destruct (ParserSpec.json_decode_except_raises (c0 :: out) p)
        as (q & Hq).
      rewrite Hq. cbn [bind]. discriminate. }
  cbn [bind]. intro H.
  apply bind_returns in H as (mf & Hm & H).
  destruct mf as [|m ms]; [|discriminate].
  apply bind_returns in H as (title & Ht & H).
  apply bind_returns in H as (content' & Hc & H).
  apply get_returns in Ht as (items & Hsd & Htitle).
  apply get_returns in Hc as (items' & Hsd' & Hcontent).
  rewrite Hsd in Hsd'. injection Hsd' as <-.
  destruct (is_none title && is_none content') eqn:Hnn; [discriminate|].
  injection H as <-.
  exists content, rest, items. rewrite Eout.
  split; [reflexivity|]. split; [discriminate|]. split; [exact El|].
  split; [exact Hsd|]. split.
  - rewrite Hsd, missing_dict in Hm. injection Hm as Hm. exact Hm.
  - intros (H1 & H2). rewrite H1 in Htitle. rewrite H2 in Hcontent.
    subst title content'. discriminate.
Qed.

Lemma call_llm_except_raises (self : LLMNewsParser) (ev : env) (e : exn) :
  exists step reason,
    call_llm_except self ev e = Raise (ParseError step reason).
Proof.
  destruct e as [step reason|p]; [|destruct p]; cbn [call_llm_except];
    eexists; eexists; reflexivity.
Qed.

(** X17.  Whatever the service and [json.loads] do, a value returned by
    [parse] is a decoded object that has the four required fields and in
    which [title] and [content] are not both null; it is what [json.loads]
    gave for the stripped content of the first choice. *)
Theorem returned_record_is_valid (self : LLMNewsParser) (ev : env)
    (raw_data : pystr) (v : json) :
  parse self ev raw_data = Return v ->
  exists clean_text llm_output items,
    _clean_html raw_data = Return clean_text
    /\ service_output self ev clean_text llm_output
    /\ json_loads ev llm_output = Return v
    /\ v = JDict items
    /\ absent_fields items = []
    /\ ~ (dict_get items (u "title") = Some JNull
          /\ dict_get items (u "content") = Some JNull).
Proof.
  unfold parse, parse_body.
  destruct (_clean_html raw_data) as [clean_text|e] eqn:Ec; cbn [bind].
  2:{ destruct e; discriminate. }
  rewrite bind_return. unfold _call_llm.
  destruct (call_llm_body self ev (bound_text self clean_text))
    as [v'|e] eqn:Eb.
  2:{ destruct (call_llm_except_raises self ev e) as (step & reason & Hr).
      rewrite Hr. discriminate. }
  intro H. injection H as <-.
  apply call_llm_body_returns in Eb
    as (content & rest & items & Hcreate & Hne & Hl & Hv & Ha & Hn).
  exists clean_text, (strip content), items.
  split; [reflexivity|]. split.
  - exists content, rest. now repeat split.
  - now repeat split.
Qed.

(** X18.  When the cleaning step fails, [parse] raises the error of the
    cleaning step as it is, whatever the parser's configuration and the
    service are: the service plays no part. *)
Theorem clean_failure_is_final (self : LLMNewsParser) (ev : env)
    (raw_data : pystr) (e : exn) :
  _clean_html raw_data = Raise e ->
  parse self ev raw_data = Raise e.
Proof.
  intro H. unfold parse, parse_body. rewrite H. cbn [bind].
  apply ParserSpec.clean_html_raises in H as (reason & He). now subst e.
Qed.

(** X19.  The result of [parse] depends on the service through one request
    only, the one built from the bounded cleaned text: two environments that
    answer that request alike (and decode and format alike) give the same
    result, whatever they answer to any other request. *)
Theorem one_request_decides (self : LLMNewsParser) (ev ev' : env)
    (raw_data clean_text : pystr) :
  _clean_html raw_data = Return clean_text ->
  agree_on (build_request self (bound_text self clean_text)) ev ev' ->
  parse self ev raw_data = parse self ev' raw_data.
Proof.
  intros Hclean Hag. unfold parse, parse_body. rewrite Hclean. cbn [bind].
  unfold _call_llm. rewrite (ParserSpec.call_llm_body_agree Hag).
  destruct Hag as (_ & _ & Hf & _).
  destruct (call_llm_body self ev' (bound_text self clean_text)) as [v|e];
    [reflexivity|].
  now rewrite (@ParserSpec.call_llm_except_agree self ev ev' e Hf).
Qed.

(** Sample runs. *)

Lemma sample_markup_cleans : _clean_html sample_markup = Return sample_text.
Proof. vm_compute. reflexivity. Qed.

Lemma sample_output (answer : pystr) :
  strip answer = answer -> answer <> [] ->
  service_output default_parser (answering answer) sample_text answer.
Proof.
  intros Hs Hne. exists answer, []. now repeat split.
Qed.

Lemma missing_field_is_json_parse_witness :
  parse default_parser (answering missing_author_answer) sample_markup
  = Raise (ParseError (u "json_parse")
             (u "JSON缺少必填字段：['author']，解析结果：")).
Proof.
  destruct (@missing_field_is_json_parse default_parser
              (answering missing_author_answer) sample_markup sample_text
              missing_author_answer (u "author") missing_author_items)
    as (_ & Hp).
  - exact sample_markup_cleans.
  - apply sample_output; [vm_compute; reflexivity | vm_compute; discriminate].
  - vm_compute. reflexivity.
  - vm_compute. tauto.
  - vm_compute. reflexivity.
  - rewrite Hp. vm_compute. reflexivity.
Defined.

Lemma news_record_is_returned_witness :
  parse default_parser (answering sample_record_text) sample_markup
  = Return sample_record.
Proof.
  apply (@news_record_is_returned default_parser
           (answering sample_record_text) sample_markup sample_text
           sample_record_text
           [ (u "title", JStr (u "T")); (u "content", JStr (u "C"));
             (u "publish_time", JNull); (u "author", JNull) ]
           (JStr (u "T")) (JStr (u "C"))).
  - exact sample_markup_cleans.
  - apply sample_output; [vm_compute; reflexivity | vm_compute; discriminate].
  - vm_compute. reflexivity.
  - intros f Hf. vm_compute in Hf.
    destruct Hf as [Hf|[Hf|[Hf|[Hf|[]]]]]; subst f; vm_compute; discriminate.
  - vm_compute. reflexivity.
  - vm_compute. reflexivity.
  - left. discriminate.
Defined.

Lemma blank_answer_is_llm_request_witness :
  parse default_parser (answering [32%N; 10%N]) sample_markup
  = Raise (ParseError (u "llm_request") (u "LLM返回空内容")).
Proof.
  apply (@blank_answer_is_llm_request default_parser
           (answering [32%N; 10%N]) sample_markup sample_text
           [32%N; 10%N] []).
  - exact sample_markup_cleans.
  - reflexivity.
  - reflexivity.
Defined.

Lemma service_failure_is_llm_request_witness :
  parse default_parser (raising (APITimeoutError (u "Request timed out.")))
    sample_markup
  = Raise (ParseError (u "llm_request") (u "LLM请求超时（30.0秒）")).
Proof.
  rewrite (@service_failure_is_llm_request default_parser
             (raising (APITimeoutError (u "Request timed out.")))
             sample_markup sample_text
             (APITimeoutError (u "Request timed out."))
             sample_markup_cleans eq_refl).
  vm_compute. reflexivity.
Defined.

Lemma malformed_response_is_llm_request_witness :
  parse default_parser no_choices sample_markup
  = Raise (ParseError (u "llm_request")
             (u "LLM交互未知错误：list index out of range")).
Proof.
  destruct (@malformed_response_is_llm_request default_parser no_choices
              sample_markup sample_text [] sample_markup_cleans eq_refl)
    as (Hempty & _).
  exact (Hempty eq_refl).
Defined.

Lemma returned_record_is_valid_witness :
  exists clean_text llm_output items,
    _clean_html sample_markup = Return clean_text
    /\ service_output default_parser (answering sample_record_text)
         clean_text llm_output
    /\ json_loads (answering sample_record_text) llm_output
       = Return sample_record
    /\ sample_record = JDict items
    /\ absent_fields items = []
    /\ ~ (dict_get items (u "title") = Some JNull
          /\ dict_get items (u "content") = Some JNull).
Proof.
  apply (@returned_record_is_valid default_parser
           (answering sample_record_text) sample_markup sample_record).
  vm_compute. reflexivity.
Defined.

Lemma clean_failure_is_final_witness :
  parse default_parser (answering sample_record_text) (u "<p> </p>")
  = Raise (ParseError (u "html_clean")
             (u "HTML解析失败: 解析失败（html_clean）: HTML清理后无有效文本")).
Proof.
  apply (@clean_failure_is_final default_parser
           (answering sample_record_text) (u "<p> </p>")).
  vm_compute. reflexivity.
Defined.

Lemma one_request_decides_witness :
  parse default_parser (answering sample_record_text) sample_markup
  = parse default_parser (picky sample_record_text) sample_markup.
Proof.
  apply (@one_request_decides default_parser (answering sample_record_text)
           (picky sample_record_text) sample_markup sample_text
           sample_markup_cleans).
  repeat split.
Defined.

End ExtractionFacts.

(** ** The fallback extraction [_clean_llm_json] *)

Module FallbackFacts.

Import Re Parser FallbackVocab.

Lemma ticks_literal : u "```" = ticks.
Proof. vm_compute. reflexivity. Qed.

Lemma json_literal : u "json" = json_word.
Proof. vm_compute. reflexivity. Qed.

Section Matching.

Variable cls : char -> bool.
Variable K : list atom.

Lemma star_greedy_step (x : char) (s : pystr) (pos : nat) (c : captures) :
  match_here (StarGreedy cls :: K) (x :: s) pos c
  = if cls x then
      match match_here (StarGreedy cls :: K) s (S pos) c with
      | Some r => Some r
      | None => match_here K (x :: s) pos c
      end
    else match_here K (x :: s) pos c.
Proof. reflexivity. Qed.

Lemma star_greedy_nil (pos : nat) (c : captures) :
  match_here (StarGreedy cls :: K) [] pos c = match_here K [] pos c.
Proof. reflexivity. Qed.

Lemma star_lazy_step (s : pystr) (pos : nat) (c : captures) :
  match_here (StarLazy cls :: K) s pos c
  = match match_here K s pos c with
    | Some r => Some r
    | None =>
      match s with
      | x :: s' =>
        if cls x then match_here (StarLazy cls :: K) s' (S pos) c else None
      | [] => None
      end
    end.
Proof. destruct s; reflexivity. Qed.

(** A greedy star takes a whole run of its class when what follows the run
    is outside the class and the rest of the pattern matches there. *)
Lemma greedy_takes_all (w rest : pystr) (pos : nat) (c r : captures) :
  forallb cls w = true ->
  match rest with [] => True | x :: _ => cls x = false end ->
  match_here K rest (pos + List.length w) c = Some r ->
  match_here (StarGreedy cls :: K) (w ++ rest) pos c = Some r.
Proof.
  revert pos. induction w as [|x w IH]; intros pos Hw Hhead Hk.
  - cbn [app List.length] in *. rewrite Nat.add_0_r in Hk.
    destruct rest as [|y rest'].
    + now rewrite star_greedy_nil.
    + now rewrite star_greedy_step, Hhead.
  - cbn [forallb] in Hw. apply andb_true_iff in Hw as [Hx Hw].
    cbn [app]. rewrite star_greedy_step, Hx.
    rewrite (IH (S pos) Hw Hhead); [reflexivity|].
    cbn [List.length] in Hk.
    now replace (S pos + List.length w)%nat
      with (pos + S (List.length w))%nat by lia.
Qed.

Lemma lit_step (l s s' : pystr) (pos : nat) (c : captures) :
  strip_prefix l s = Some s' ->
  match_here (Lit l :: K) s pos c = match_here K s' (pos + List.length l) c.
Proof. intro H. cbn [match_here]. now rewrite H. Qed.

Lemma opt_lit_taken (l s s' : pystr) (pos : nat) (c r : captures) :
  strip_prefix l s = Some s' ->
  match_here K s' (pos + List.length l) c = Some r ->
  match_here (OptLit l :: K) s pos c = Some r.
Proof. intros H Hk. cbn [match_here]. now rewrite H, Hk. Qed.

Lemma group_close_step (s : pystr) (pos : nat) (c : captures) :
  match_here (GroupClose :: K) s pos c
  = match_here K s pos {| g_open := g_open c; g_close := pos |}.
Proof. reflexivity. Qed.

Lemma group_open_step (s : pystr) (pos : nat) (c : captures) :
  match_here (GroupOpen :: K) s pos c
  = match_here K s pos {| g_open := pos; g_close := g_close c |}.
Proof. reflexivity. Qed.

End Matching.

Lemma strip_prefix_app (l s : pystr) : strip_prefix l (l ++ s) = Some s.
Proof.
  induction l as [|x l IH]; cbn [app strip_prefix]; [reflexivity|].
  now rewrite N.eqb_refl.
Qed.

Lemma tick_is_not_space (x : char) : isspace x = true -> (96 =? x)%N = false.
Proof.
  intro H. apply N.eqb_neq. intro E. subst x. discriminate.
Qed.

Lemma lacks_head (ch x : char) (s : pystr) :
  lacks ch (x :: s) = true -> (ch =? x)%N = false /\ lacks ch s = true.
Proof.
  unfold lacks. cbn [forallb]. intro H.
  apply andb_true_iff in H as [Hx Hs]. apply negb_true_iff in Hx.
  split; [now rewrite N.eqb_sym | exact Hs].
Qed.

Lemma rstrip_fixed_tail (x : char) (b : pystr) :
  rstrip (x :: b) = x :: b -> rstrip b = b.
Proof.
  rewrite PyStrFacts.rstrip_cons.
  destruct (rstrip b) as [|d r] eqn:E.
  - destruct (isspace x); intro H; [discriminate|].
    injection H as <-. reflexivity.
  - intro H. now injection H.
Qed.

Lemma rstrip_fixed_space (x : char) (b : pystr) :
  rstrip (x :: b) = x :: b -> isspace x = true -> b <> [].
Proof.
  intros H Hx Hb. subst b. cbn in H. rewrite Hx in H. discriminate.
Qed.

(** Inside the block the closing part of the pattern matches nowhere. *)
Lemma close_fails_inside (b rest : pystr) (pos : nat) (c : captures) :
  b <> [] -> lacks 96%N b = true -> rstrip b = b ->
  match_here after_group (b ++ rest) pos c = None.
Proof.
  unfold after_group. revert pos.
  induction b as [|x b IH]; intros pos Hne Hl Hr; [contradiction|].
  apply lacks_head in Hl as [Hx Hl].
  cbn [app]. rewrite star_greedy_step.
  assert (Hlit : match_here [Lit ticks] (x :: b ++ rest) pos c = None).
  { cbn [match_here strip_prefix ticks]. unfold ticks.
    cbn [strip_prefix]. now rewrite Hx. }
  destruct (isspace x) eqn:Es; [|exact Hlit].
  rewrite IH; [exact Hlit | | exact Hl |].
  - now apply rstrip_fixed_space with x.
  - now apply rstrip_fixed_tail with x.
Qed.

(** The lazy star runs to the end of the block. *)
Lemma lazy_crosses (b rest : pystr) (pos : nat) (c : captures) :
  lacks 96%N b = true -> rstrip b = b ->
  match_here from_lazy (b ++ rest) pos c
  = match_here from_lazy rest (pos + List.length b) c.
Proof.
  unfold from_lazy. revert pos.
  induction b as [|x b IH]; intros pos Hl Hr.
  - cbn [app List.length]. now rewrite Nat.add_0_r.
  - rewrite star_lazy_step, group_close_step.
    rewrite close_fails_inside; [|discriminate | exact Hl | exact Hr].
    cbn [app]. apply lacks_head in Hl as [_ Hl].
    rewrite IH; [|exact Hl | now apply rstrip_fixed_tail with x].
    cbn [List.length]. f_equal. lia.
Qed.

(** At the end of the block the closing part matches. *)
Lemma close_succeeds (w2 rest : pystr) (pos : nat) (c : captures) :
  forallb isspace w2 = true ->
  match_here from_lazy (w2 ++ ticks ++ rest) pos c
  = Some {| g_open := g_open c; g_close := pos |}.
Proof.
  intro Hw. unfold from_lazy. rewrite star_lazy_step, group_close_step.
  unfold after_group.
  rewrite (@greedy_takes_all isspace [Lit ticks] w2 (ticks ++ rest) pos
             {| g_open := g_open c; g_close := pos |}
             {| g_open := g_open c; g_close := pos |} Hw);
    reflexivity.
Qed.

Lemma json_pattern_unfold : json_pattern = fence_pattern.
Proof.
  unfold json_pattern. rewrite ticks_literal, json_literal. reflexivity.
Qed.

(** The pattern matched at the opening fence captures the block. *)
Lemma fence_matches (w1 body w2 rest : pystr) (pos : nat) (c : captures) :
  forallb isspace w1 = true -> forallb isspace w2 = true ->
  body <> [] -> starts_clean body = true -> rstrip body = body ->
  lacks 96%N body = true ->
  match_here fence_pattern
    (ticks ++ json_word ++ w1 ++ body ++ w2 ++ ticks ++ rest) pos c
  = Some {| g_open := pos + 7 + List.length w1;
            g_close := pos + 7 + List.length w1 + List.length body |}.
Proof.
  intros Hw1 Hw2 Hne Hsc Hr Hl.
  assert (Hin : match_here
                  (StarGreedy isspace :: GroupOpen :: from_lazy)
                  (w1 ++ body ++ w2 ++ ticks ++ rest) (pos + 3 + 4) c
                = Some {| g_open := pos + 7 + List.length w1;
                          g_close := pos + 7 + List.length w1
                                     + List.length body |}).
  { apply greedy_takes_all; [exact Hw1 | |].
    - destruct body as [|x body']; [contradiction|].
      cbn [app]. cbn [starts_clean] in Hsc. now apply negb_true_iff in Hsc.
    - rewrite group_open_step.
      rewrite lazy_crosses by assumption.
      rewrite close_succeeds by assumption. cbn [g_open].
      f_equal. f_equal; lia. }
  unfold fence_pattern. cbn [app].
  rewrite (@lit_step _ ticks _ _ pos c (strip_prefix_app ticks _)).
  apply (@opt_lit_taken _ json_word _ _ _ c _ (strip_prefix_app json_word _)).
  exact Hin.
Qed.

Lemma search_skips (K : list atom) (subject before s : pystr) (pos : nat) :
  lacks 96%N before = true ->
  search_from (Lit ticks :: K) subject (before ++ s) pos
  = search_from (Lit ticks :: K) subject s (pos + List.length before).
Proof.
  revert pos. induction before as [|x before IH]; intros pos Hl.
  - cbn [app List.length]. now rewrite Nat.add_0_r.
  - apply lacks_head in Hl as [Hx Hl].
    cbn [app search_from match_here strip_prefix ticks]. unfold ticks.
    cbn [strip_prefix]. rewrite Hx.
    rewrite IH by exact Hl. cbn [List.length]. f_equal. lia.
Qed.

Lemma search_finds_nothing (K : list atom) (subject s : pystr) (pos : nat) :
  lacks 96%N s = true ->
  search_from (Lit ticks :: K) subject s pos = None.
Proof.
  revert pos. induction s as [|x s IH]; intros pos Hl.
  - reflexivity.
  - apply lacks_head in Hl as [Hx Hl].
    cbn [search_from match_here strip_prefix ticks]. unfold ticks.
    cbn [strip_prefix]. rewrite Hx. now apply IH.
Qed.

Lemma search_hit (atoms : list atom) (subject s : pystr) (pos : nat)
    (c : captures) :
  match_here atoms s pos {| g_open := 0; g_close := 0 |} = Some c ->
  search_from atoms subject s pos
  = Some (firstn (g_close c - g_open c) (skipn (g_open c) subject)).
Proof. intro H. destruct s; cbn [search_from]; now rewrite H. Qed.

Lemma skipn_all (A : Type) (a b : list A) :
  skipn (List.length a) (a ++ b) = b.
Proof. induction a; [reflexivity | assumption]. Qed.

Lemma firstn_all (A : Type) (a b : list A) :
  firstn (List.length a) (a ++ b) = a.
Proof. induction a as [|x a IH]; [reflexivity | cbn; now rewrite IH]. Qed.

Lemma strip_fixed (s : pystr) :
  starts_clean s = true -> rstrip s = s -> strip s = s.
Proof.
  intros Hs Hr. unfold strip. now rewrite PyStrFacts.lstrip_fixed.
Qed.

Lemma stripped_parts (s : pystr) :
  strip s = s -> starts_clean s = true /\ rstrip s = s.
Proof.
  intro H. assert (Hs : starts_clean s = true)
    by (rewrite <- H; apply PyStrFacts.strip_starts_clean).
  split; [exact Hs|]. unfold strip in H.
  now rewrite PyStrFacts.lstrip_fixed in H.
Qed.

(** X20.  From an answer that holds a block fenced by three backticks and
    the word json, [_clean_llm_json] returns the block: for any text without
    backticks before the fence, any white space inside the fence around the
    block, any text after the closing fence, and any non-empty block without
    backticks that has no white space at its ends. *)
Theorem fenced_block_is_extracted (before w1 body w2 after : pystr) :
  lacks 96%N before = true ->
  forallb isspace w1 = true -> forallb isspace w2 = true ->
  body <> [] -> strip body = body -> lacks 96%N body = true ->
  _clean_llm_json (fenced before w1 body w2 after) = body.
Proof.
  intros Hb Hw1 Hw2 Hne Hs Hl.
  destruct (@stripped_parts body Hs) as (Hsc & Hr).
  unfold _clean_llm_json, search_group1. rewrite json_pattern_unfold.
  unfold fenced.
  change fence_pattern
    with (Lit ticks :: ([OptLit json_word; StarGreedy isspace; GroupOpen]
                          ++ from_lazy)).
  rewrite search_skips by exact Hb.
  change (Lit ticks :: ([OptLit json_word; StarGreedy isspace; GroupOpen]
                          ++ from_lazy))
    with fence_pattern.
  rewrite (@search_hit fence_pattern _ _ _ _
             (@fence_matches w1 body w2 after _ _ Hw1 Hw2 Hne Hsc Hr Hl)).
  cbn [g_open g_close].
  replace (0 + List.length before + 7 + List.length w1
           + List.length body
           - (0 + List.length before + 7 + List.length w1))%nat
    with (List.length body) by lia.
  replace (0 + List.length before + 7 + List.length w1)%nat
    with (List.length (before ++ ticks ++ json_word ++ w1))
    by (rewrite !length_app; cbn [List.length ticks json_word]; lia).
  replace (before ++ ticks ++ json_word ++ w1 ++ body ++ w2 ++ ticks ++ after)
    with ((before ++ ticks ++ json_word ++ w1)
            ++ body ++ w2 ++ ticks ++ after)
    by (rewrite <- !app_assoc; reflexivity).
  rewrite skipn_all, firstn_all. exact Hs.
Qed.

Lemma find_absent (ch : char) (s : pystr) :
  lacks ch s = true -> find ch s = (-1)%Z.
Proof.
  unfold lacks. induction s as [|x s IH]; cbn [forallb find]; [reflexivity|].
  intro H. apply andb_true_iff in H as [Hx Hs]. apply negb_true_iff in Hx.
  now rewrite Hx, (IH Hs).
Qed.

Lemma rfind_absent (ch : char) (s : pystr) :
  lacks ch s = true -> rfind ch s = (-1)%Z.
Proof.
  unfold lacks. induction s as [|x s IH]; cbn [forallb rfind]; [reflexivity|].
  intro H. apply andb_true_iff in H as [Hx Hs]. apply negb_true_iff in Hx.
  now rewrite (IH Hs), Hx.
Qed.

Lemma find_first (ch : char) (before after : pystr) :
  lacks ch before = true ->
  find ch (before ++ ch :: after) = Z.of_nat (List.length before).
Proof.
  unfold lacks. induction before as [|x before IH]; cbn [forallb app find].
  - now rewrite N.eqb_refl.
  - intro H. apply andb_true_iff in H as [Hx Hs]. apply negb_true_iff in Hx.
    rewrite Hx, (IH Hs).
    destruct (Z.of_nat (List.length before) <? 0)%Z eqn:E;
      [apply Z.ltb_lt in E; lia|].
    cbn [List.length]. lia.
Qed.

Lemma rfind_last (ch : char) (before after : pystr) :
  lacks ch after = true ->
  rfind ch (before ++ ch :: after) = Z.of_nat (List.length before).
Proof.
  intro Ha. induction before as [|x before IH]; cbn [app rfind].
  - now rewrite (rfind_absent ch after Ha), N.eqb_refl.
  - rewrite IH.
    destruct (0 <=? Z.of_nat (List.length before))%Z eqn:E;
      [|apply Z.leb_gt in E; lia].
    cbn [List.length]. lia.
Qed.

Lemma rstrip_snoc (a : pystr) (c : char) :
  isspace c = false -> rstrip (a ++ [c]) = a ++ [c].
Proof.
  intro Hc. induction a as [|x a IH].
  - cbn. now rewrite Hc.
  - cbn [app]. rewrite PyStrFacts.rstrip_cons, IH.
    destruct (a ++ [c]) eqn:E; [|reflexivity].
    symmetry in E. now apply app_cons_not_nil in E.
Qed.

Lemma no_fence_found (response : pystr) :
  lacks 96%N response = true ->
  search_group1 json_pattern response = None.
Proof.
  intro H. unfold search_group1. rewrite json_pattern_unfold.
  unfold fence_pattern. cbn [app]. now apply search_finds_nothing.
Qed.

(** X21.  From an answer without backticks that holds an object,
    [_clean_llm_json] returns the text from the first opening brace to the
    last closing brace, braces included, whatever stands before and after. *)
Theorem embedded_object_is_extracted (before inside after : pystr) :
  lacks 96%N (embedded before inside after) = true ->
  lacks 123%N before = true ->
  lacks 125%N after = true ->
  _clean_llm_json (embedded before inside after)
  = [123%N] ++ inside ++ [125%N].
Proof.
  intros Ht Hb Ha. unfold _clean_llm_json.
  rewrite (no_fence_found _ Ht).
  assert (Hstart : find 123%N (embedded before inside after)
                   = Z.of_nat (List.length before)).
  { unfold embedded. cbn [app]. now apply find_first. }
  assert (Hend : rfind 125%N (embedded before inside after)
                 = Z.of_nat (List.length (before ++ [123%N] ++ inside))).
  { unfold embedded.
    replace (before ++ [123%N] ++ inside ++ [125%N] ++ after)
      with ((before ++ [123%N] ++ inside) ++ 125%N :: after)
      by (rewrite <- !app_assoc; reflexivity).
    now apply rfind_last. }
  rewrite Hstart, Hend.
  destruct (Z.of_nat (List.length before) =? -1)%Z eqn:E1;
    [apply Z.eqb_eq in E1; lia|].
  destruct (Z.of_nat (List.length (before ++ [123%N] ++ inside)) =? -1)%Z
    eqn:E2; [apply Z.eqb_eq in E2; lia|].
  cbn [negb andb]. unfold slice. rewrite Nat2Z.id.
  unfold embedded. rewrite skipn_all.
  replace (Z.to_nat (Z.of_nat (List.length (before ++ [123%N] ++ inside)) + 1
                     - Z.of_nat (List.length before)))
    with (List.length ([123%N] ++ inside ++ [125%N]))
    by (rewrite !length_app; cbn [List.length];
        change (@List.length char) with (@List.length N); lia).
  replace ([123%N] ++ inside ++ [125%N] ++ after)
    with (([123%N] ++ inside ++ [125%N]) ++ after)
    by (rewrite <- !app_assoc; reflexivity).
  rewrite firstn_all.
  apply strip_fixed; [reflexivity|].
  replace ([123%N] ++ inside ++ [125%N])
    with (([123%N] ++ inside) ++ [125%N])
    by (rewrite <- !app_assoc; reflexivity).
  now apply rstrip_snoc.
Qed.

(** X22.  An answer that holds no backtick and lacks an opening or a closing
    brace is returned with the white space at its ends removed and nothing
    else changed. *)
Theorem plain_answer_is_stripped (response : pystr) :
  lacks 96%N response = true ->
  lacks 123%N response = true \/ lacks 125%N response = true ->
  _clean_llm_json response = strip response.
Proof.
  intros Ht Hb. unfold _clean_llm_json. rewrite (no_fence_found _ Ht).
  destruct Hb as [Hb|Hb].
  - rewrite (find_absent _ _ Hb). reflexivity.
  - rewrite (rfind_absent _ _ Hb).
    destruct (negb (find 123%N response =? -1)%Z); reflexivity.
Qed.

(** X23.  Whatever the answer is, the text that [_clean_llm_json] returns has
    no white space at its ends. *)
Theorem fallback_output_is_stripped (response : pystr) :
  strip (_clean_llm_json response) = _clean_llm_json response.
Proof.
  unfold _clean_llm_json.
  destruct (search_group1 json_pattern response) as [group1|].
  - apply PyStrFacts.strip_idem.
  - destruct (negb (find 123%N response =? -1)%Z
              && negb (rfind 125%N response =? -1)%Z);
      apply PyStrFacts.strip_idem.
Qed.

Lemma fenced_block_is_extracted_witness :
  _clean_llm_json
    (fenced (u "Sure: ") [10%N] sample_record_text [32%N; 10%N] (u " done"))
  = sample_record_text.
Proof.
  apply (@fenced_block_is_extracted (u "Sure: ") [10%N] sample_record_text
           [32%N; 10%N] (u " done"));
    try (vm_compute; reflexivity).
  vm_compute. discriminate.
Defined.

Lemma embedded_object_is_extracted_witness :
  _clean_llm_json (embedded (u "Result } ") (uq "'a': {}") (u " { end"))
  = [123%N] ++ uq "'a': {}" ++ [125%N].
Proof.
  apply (@embedded_object_is_extracted (u "Result } ") (uq "'a': {}")
           (u " { end"));
    vm_compute; reflexivity.
Defined.

Lemma plain_answer_is_stripped_witness :
  _clean_llm_json (u "  no object here }  ") = u "no object here }".
Proof.
  rewrite (@plain_answer_is_stripped (u "  no object here }  ")).
  - vm_compute. reflexivity.
  - vm_compute. reflexivity.
  - left. vm_compute. reflexivity.
Defined.

End FallbackFacts.

(** ** One URL through the pipeline *)

Module OrchestratorFacts.

Import Orchestrator.



(** X25.  With the fetcher that [main] builds, a 2xx response of at most 100
    bytes on the first attempt ends the run at once: one request, no retry,
    no call of the parser, and a fetch failure whose reason names the length
    of the body. *)
Theorem short_page_is_reported_as_rejected (nw : Fetcher.net)
    (ev : Parser.env) (decode : Fetcher.bytes -> pystr)
    (show : Json.json -> result Parser.py_exn unit) (url : pystr)
    (w : Fetcher.world) (status_code : Z) (content : Fetcher.bytes) :
  Fetcher.http_get nw (Fetcher.sent w)
    (Fetcher.build_request nw (Fetcher.sent w) url)
  = Fetcher.Response status_code content ->
  Fetcher.is_success status_code = true ->
  (List.length content <= 100)%nat ->
  process_single_url main_fetcher nw main_parser ev decode show url w
  = (FetchFailed (u "内容校验失败: " ++ FetcherVocab.rejection_reason content),
     {| Fetcher.sent := S (Fetcher.sent w);
        Fetcher.events :=
          Fetcher.events w
            ++ [Fetcher.EvGet
                  (Fetcher.build_request nw (Fetcher.sent w) url)] |}).
Proof.
  intros Hget Hst Hlen.
  assert (Hrej : FetcherVocab.accepted main_fetcher content = false).
  { unfold FetcherVocab.accepted, main_fetcher, main_validator.
    cbn [Fetcher.content_validator].
    destruct (Nat.ltb_spec 100 (List.length content)); [lia | reflexivity]. }
  unfold process_single_url, process_body, Fetcher.fetch.
  change (py_range (Fetcher.max_retries main_fetcher))
    with [0%Z; 1%Z; 2%Z].
  cbn [Fetcher.fetch_loop].
  rewrite (@FetcherRuns.attempt_rejects main_fetcher nw url w status_code
             content Hget Hst Hrej).
  reflexivity.
Qed.


Lemma short_page_is_reported_as_rejected_witness :
  fst (process_single_url main_fetcher Fetcher.always_200_empty main_parser
         (Parser.answering Parser.sample_record_text) latin1 quiet_print
         Fetcher.some_url Fetcher.world0)
  = FetchFailed (u "内容校验失败: 内容未通过校验（长度: 0 字节）").
Proof.
  rewrite (@short_page_is_reported_as_rejected Fetcher.always_200_empty
             (Parser.answering Parser.sample_record_text) latin1
             quiet_print Fetcher.some_url Fetcher.world0 200%Z []).
  - reflexivity.
  - reflexivity.
  - reflexivity.
  - cbn. lia.
Defined.

End OrchestratorFacts.
